(** * Verification of [modules/groq_inference.py]

    A shallow embedding of the class [GroqMultimodalProcessor] and the proofs
    of the properties its specification states.

    Modelling conventions.
    - A Python [str] is a [string]; its characters stand for the code points
      U+0000 .. U+00FF.  [str.lower], [str.strip] and [repr] are written out
      for that range.
    - [bytes] are [list byte].
    - A Python value that can reach the code (a parsed JSON body, a payload)
      is a [pyval]; a float is kept as its [repr].
    - The file system, the HTTP transport and the image decoder are oracles
      of a [Runtime] over an abstract world, which every call may change.
      The code runs in a state and exception monad that also records every
      call of an oracle and every printed line.
    - The standard output is an oracle too: [print] may raise.  The methods
      are defined over any standard output in [Console]; the methods without
      a prefix are those on a standard output that takes every line.
    - Exceptions are the instances of [Exception]; [KeyboardInterrupt] and
      the other signals, which [except Exception] lets through, are outside
      the model. *)

From Stdlib Require Import String Ascii List Bool ZArith NArith Lia.
From Stdlib Require Import DecimalString.
From Stdlib.Strings Require Byte.
Import ListNotations.

Set Warnings "-register-all".

Local Open Scope list_scope.
Local Open Scope string_scope.

(** ** Strings *)

Module PyStr.

Definition nl : string := String (ascii_of_nat 10) "".
Definition dquote : ascii := ascii_of_nat 34.
Definition squote : ascii := ascii_of_nat 39.
Definition backslash : ascii := ascii_of_nat 92.

(** [str(n)] for an [int]. *)
Definition of_Z (n : Z) : string := NilZero.string_of_int (Z.to_int n).

(** One character of [str.lower]: A-Z and the capital letters of Latin-1
    (U+00C0 .. U+00DE but the multiplication sign U+00D7) move up by 32. *)
Definition lower_char (c : ascii) : ascii :=
  let n := N_of_ascii c in
  if ((65 <=? n) && (n <=? 90) ||
      (192 <=? n) && (n <=? 222) && negb (n =? 215))%N
  then ascii_of_N (n + 32) else c.

Fixpoint lower (s : string) : string :=
  match s with
  | EmptyString => EmptyString
  | String c r => String (lower_char c) (lower r)
  end.

(** [str.isspace] on one character: U+0009 .. U+000D, U+001C .. U+0020,
    U+0085 and U+00A0. *)
Definition is_space (c : ascii) : bool :=
  let n := N_of_ascii c in
  ((9 <=? n) && (n <=? 13) || (28 <=? n) && (n <=? 32) ||
   (n =? 133) || (n =? 160))%N.

Fixpoint lstrip (s : string) : string :=
  match s with
  | EmptyString => EmptyString
  | String c r => if is_space c then lstrip r else s
  end.

Fixpoint rstrip (s : string) : string :=
  match s with
  | EmptyString => EmptyString
  | String c r =>
      match rstrip r with
      | EmptyString => if is_space c then EmptyString else String c EmptyString
      | r' => String c r'
      end
  end.

(** [s.strip()] *)
Definition strip (s : string) : string := rstrip (lstrip s).

(** [s.split(sep)] for a separator of one character: never an empty list. *)
Fixpoint split (sep : ascii) (s : string) : list string :=
  match s with
  | EmptyString => [EmptyString]
  | String c r =>
      if Ascii.eqb c sep then EmptyString :: split sep r
      else match split sep r with
           | [] => [String c EmptyString]
           | w :: ws => String c w :: ws
           end
  end.

(** [l[-1]] on a list of strings that is known not to be empty. *)
Definition last_item (l : list string) : string := List.last l EmptyString.

(** [sep.join(l)] *)
Fixpoint join (sep : string) (l : list string) : string :=
  match l with
  | [] => EmptyString
  | [x] => x
  | x :: r => x ++ sep ++ join sep r
  end.

Fixpoint contains (c : ascii) (s : string) : bool :=
  match s with
  | EmptyString => false
  | String a r => Ascii.eqb a c || contains c r
  end.

(** [os.path.basename] of [posixpath]: what follows the last slash. *)
Definition basename (p : string) : string := last_item (split "/"%char p).

(** Truth value of a [str]: every string but the empty one. *)
Definition truthy (s : string) : bool :=
  match s with EmptyString => false | _ => true end.

Definition hex_digit (n : N) : ascii :=
  match String.get (N.to_nat n) "0123456789abcdef" with
  | Some c => c
  | None => "0"%char
  end.

(** One character of [repr(s)] inside the quotes [q]. *)
Definition repr_char (q c : ascii) : string :=
  let n := N_of_ascii c in
  if Ascii.eqb c q || Ascii.eqb c backslash then String backslash (String c "")
  else if (n =? 9)%N then String backslash "t"
  else if (n =? 10)%N then String backslash "n"
  else if (n =? 13)%N then String backslash "r"
  else if ((n <? 32) || (n =? 127) || (128 <=? n) && (n <=? 160) || (n =? 173))%N
  then String backslash
         (String "x" (String (hex_digit (n / 16)) (String (hex_digit (n mod 16)) "")))
  else String c "".

Fixpoint repr_body (q : ascii) (s : string) : string :=
  match s with
  | EmptyString => EmptyString
  | String c r => repr_char q c ++ repr_body q r
  end.

(** [repr(s)]: single quotes, unless [s] has a single quote and no double
    quote. *)
Definition repr (s : string) : string :=
  let q := if contains squote s && negb (contains dquote s) then dquote else squote in
  String q (repr_body q s ++ String q "").

End PyStr.

(** ** Base64 *)

Module Base64.

Definition alphabet : string :=
  "ABCDEFGHIJKLMNOPQRSTUVWXYZabcdefghijklmnopqrstuvwxyz0123456789+/".

Definition digit (n : N) : ascii :=
  match String.get (N.to_nat (N.land n 63)) alphabet with
  | Some c => c
  | None => "="%char
  end.

(** [base64.b64encode(data).decode('utf-8')]: three bytes give four digits,
    a last group of one or two bytes is padded with [=]. *)
Fixpoint b64encode (data : list Byte.byte) : string :=
  match data with
  | [] => EmptyString
  | [a] =>
      let n := N.shiftl (Byte.to_N a) 16 in
      String (digit (N.shiftr n 18)) (String (digit (N.shiftr n 12)) "==")
  | [a; b] =>
      let n := N.lor (N.shiftl (Byte.to_N a) 16) (N.shiftl (Byte.to_N b) 8) in
      String (digit (N.shiftr n 18)) (String (digit (N.shiftr n 12))
        (String (digit (N.shiftr n 6)) "="))
  | a :: b :: c :: rest =>
      let n := N.lor (N.lor (N.shiftl (Byte.to_N a) 16) (N.shiftl (Byte.to_N b) 8))
                     (Byte.to_N c) in
      String (digit (N.shiftr n 18)) (String (digit (N.shiftr n 12))
        (String (digit (N.shiftr n 6)) (String (digit n) (b64encode rest))))
  end.

End Base64.

(** ** Python values, exceptions, requests and responses *)

Inductive pyval : Type :=
| PNone
| PBool (b : bool)
| PInt (n : Z)
| PFloat (repr : string)
| PStr (s : string)
| PList (items : list pyval)
| PDict (entries : list (string * pyval)).

(** An instance of [Exception]: its class and [str(e)]. *)
Inductive exn : Type := Exception (cls : string) (msg : string).

Definition exn_str (e : exn) : string := let 'Exception _ msg := e in msg.

Definition type_name (v : pyval) : string :=
  match v with
  | PNone => "NoneType"
  | PBool _ => "bool"
  | PInt _ => "int"
  | PFloat _ => "float"
  | PStr _ => "str"
  | PList _ => "list"
  | PDict _ => "dict"
  end.

(** [repr(v)] *)
Fixpoint py_repr (v : pyval) : string :=
  match v with
  | PNone => "None"
  | PBool true => "True"
  | PBool false => "False"
  | PInt n => PyStr.of_Z n
  | PFloat r => r
  | PStr s => PyStr.repr s
  | PList items => "[" ++ PyStr.join ", " (map py_repr items) ++ "]"
  | PDict entries =>
      "{" ++ PyStr.join ", "
               (map (fun kv => match kv with
                               | (k, x) => PyStr.repr k ++ ": " ++ py_repr x
                               end) entries) ++ "}"
  end.

(** [str(v)], which is what [f"{v}"] formats. *)
Definition py_str (v : pyval) : string :=
  match v with
  | PStr s => s
  | _ => py_repr v
  end.

Definition is_str (v : pyval) : bool :=
  match v with PStr _ => true | _ => false end.

(** The binding of a key in a dict. *)
Fixpoint lookup (k : string) (entries : list (string * pyval)) : option pyval :=
  match entries with
  | [] => None
  | (k', x) :: rest => if String.eqb k' k then Some x else lookup k rest
  end.

Definition not_subscriptable (v : pyval) : exn :=
  Exception "TypeError" ("'" ++ type_name v ++ "' object is not subscriptable").

(** [v[k]] for a string [k]. *)
Definition getitem (v : pyval) (k : string) : exn + pyval :=
  match v with
  | PDict entries =>
      match lookup k entries with
      | Some x => inr x
      | None => inl (Exception "KeyError" (PyStr.repr k))
      end
  | PList _ =>
      inl (Exception "TypeError" "list indices must be integers or slices, not str")
  | PStr _ =>
      inl (Exception "TypeError" "string indices must be integers, not 'str'")
  | _ => inl (not_subscriptable v)
  end.

(** [v[0]]; the keys of a dict of the model are strings, so that a dict has
    no key [0]. *)
Definition getitem0 (v : pyval) : exn + pyval :=
  match v with
  | PList (x :: _) => inr x
  | PList [] => inl (Exception "IndexError" "list index out of range")
  | PStr (String c _) => inr (PStr (String c ""))
  | PStr EmptyString => inl (Exception "IndexError" "string index out of range")
  | PDict _ => inl (Exception "KeyError" "0")
  | _ => inl (not_subscriptable v)
  end.

(** [v.get(k, default)] *)
Definition dict_get (v : pyval) (k : string) (default : pyval) : exn + pyval :=
  match v with
  | PDict entries =>
      match lookup k entries with
      | Some x => inr x
      | None => inr default
      end
  | _ => inl (Exception "AttributeError"
                ("'" ++ type_name v ++ "' object has no attribute 'get'"))
  end.

(** One entry of the [files] argument of [requests.post]: a file object
    (given by the path it was opened on) with its name and MIME type, or a
    plain value. *)
Inductive file_part : Type :=
| FilePart (filename : string) (opened : string) (mime_type : string)
| ValuePart (value : string).

Inductive request_body : Type :=
| JsonBody (payload : pyval)
| FilesBody (files : list (string * file_part)).

Record request : Type := mkRequest {
  req_url : string;
  req_headers : list (string * string);
  req_body : request_body
}.

(** What the code reads of a [requests.Response]. *)
Record response : Type := mkResponse {
  status_code : Z;
  text : string;
  json : exn + pyval
}.

(** What the code reads of an opened [PIL.Image]: [size] and [mode]. *)
Record image : Type := mkImage {
  width : Z;
  height : Z;
  mode : string
}.

(** ** The environment and the monad of the code *)

Record Runtime (World : Type) : Type := mkRuntime {
  os_path_exists : string -> World -> bool * World;
  file_open : string -> World -> (exn + unit) * World;
  file_read : string -> World -> (exn + list Byte.byte) * World;
  requests_post : request -> World -> (exn + response) * World;
  image_open : string -> World -> (exn + image) * World
}.

Arguments os_path_exists {World}.
Arguments file_open {World}.
Arguments file_read {World}.
Arguments requests_post {World}.
Arguments image_open {World}.

Inductive event : Type :=
| Printed (line : string)
| PathChecked (path : string)
| FileOpened (path : string)
| FileRead (path : string)
| Posted (r : request)
| ImageOpened (path : string).

Record state (World : Type) : Type := mkState {
  world : World;
  trace : list event
}.

Arguments mkState {World}.
Arguments world {World}.
Arguments trace {World}.

Definition M (World A : Type) : Type := state World -> (exn + A) * state World.

Definition ret {World A : Type} (x : A) : M World A := fun st => (inr x, st).

Definition bind {World A B : Type} (c : M World A) (k : A -> M World B) : M World B :=
  fun st =>
    match c st with
    | (inr x, st') => k x st'
    | (inl e, st') => (inl e, st')
    end.

(** [try: body  except Exception as e: handler] and the bare [except:]. *)
Definition try_except {World A : Type} (body : M World A) (handler : exn -> M World A)
  : M World A :=
  fun st =>
    match body st with
    | (inr x, st') => (inr x, st')
    | (inl e, st') => handler e st'
    end.

(** The outcome of a pure computation that may raise. *)
Definition lift {World A : Type} (r : exn + A) : M World A := fun st => (r, st).

Definition log {World : Type} (ev : event) (st : state World) : state World :=
  mkState (world st) (trace st ++ [ev])%list.

(** A call of an oracle: recorded, then answered by the world. *)
Definition call {World A : Type} (ev : event) (f : World -> (exn + A) * World)
  : M World A :=
  fun st =>
    match f (world st) with
    | (r, w) => (r, mkState w (trace st ++ [ev])%list)
    end.

(** The standard output: what writing a line does to the world, and the
    exception it may raise ([UnicodeEncodeError], [BrokenPipeError], a
    [ValueError] on a closed file). *)
Definition Stdout (World : Type) : Type := string -> World -> (exn + unit) * World.

(** A standard output that takes every line. *)
Definition working {World : Type} : Stdout World := fun _ w => (inr tt, w).

(** [print(line)]: recorded, then written. *)
Definition print {World : Type} (out : Stdout World) (line : string) : M World unit :=
  call (Printed line) (out line).

Declare Scope py_scope.
Delimit Scope py_scope with py.
Notation "x <- c ;; k" := (bind c (fun x => k))
  (at level 61, c at next level, right associativity) : py_scope.
Notation "c ;;; k" := (bind c (fun _ => k))
  (at level 61, right associativity) : py_scope.

(** The requests a trace holds. *)
Fixpoint posts (t : list event) : list request :=
  match t with
  | [] => []
  | Posted r :: rest => r :: posts rest
  | _ :: rest => posts rest
  end.

(** ** The class [GroqMultimodalProcessor] *)

Record GroqMultimodalProcessor : Type := mkProcessor {
  api_key : string;
  base_url : string;
  headers : list (string * string)
}.

(** [__init__] *)
Definition init (key : string) : GroqMultimodalProcessor :=
  {| api_key := key;
     base_url := "https://api.groq.com/openai/v1";
     headers := [("Authorization", "Bearer " ++ key);
                 ("Content-Type", "application/json")] |}.

(** Truth value of an argument that is [None] or a [str]. *)
Definition given (arg : option string) : bool :=
  match arg with
  | None => false
  | Some s => PyStr.truthy s
  end.

(** [path.lower().split('.')[-1]] *)
Definition format_of (path : string) : string :=
  PyStr.last_item (PyStr.split "." (PyStr.lower path)).

(** Lines 38-40: the image format of the data URI. *)
Definition image_format_of (img_path : string) : string :=
  let image_format := format_of img_path in
  if String.eqb image_format "jpg" then "jpeg" else image_format.

(** Lines 103-110: the MIME type of the uploaded audio file. *)
Definition audio_mime_type (audio_path : string) : string :=
  let audio_format := format_of audio_path in
  let mime_type := "audio/" ++ audio_format in
  if String.eqb audio_format "mp3" then "audio/mpeg"
  else if String.eqb audio_format "wav" then "audio/wav"
  else if String.eqb audio_format "ogg" then "audio/ogg"
  else mime_type.

Definition data_uri (image_format base64_image : string) : string :=
  "data:image/" ++ image_format ++ ";base64," ++ base64_image.

(** Lines 43-64: the payload of the vision request. *)
Definition vision_payload (image_format base64_image : string) : pyval :=
  PDict
    [("model", PStr "meta-llama/llama-4-scout-17b-16e-instruct");
     ("messages",
       PList
         [PDict
            [("role", PStr "user");
             ("content",
               PList
                 [PDict
                    [("type", PStr "text");
                     ("text",
                       PStr "Please describe this image in detail. What do you see?")];
                  PDict
                    [("type", PStr "image_url");
                     ("image_url",
                       PDict [("url", PStr (data_uri image_format base64_image))])]])]]);
     ("max_tokens", PInt 500);
     ("temperature", PFloat "0.3")].

(** Lines 66-70. *)
Definition vision_request (self : GroqMultimodalProcessor)
    (img_path base64_image : string) : request :=
  {| req_url := base_url self ++ "/chat/completions";
     req_headers := headers self;
     req_body := JsonBody (vision_payload (image_format_of img_path) base64_image) |}.

(** Lines 100-120: the transcription request. *)
Definition transcription_request (self : GroqMultimodalProcessor)
    (audio_path : string) : request :=
  {| req_url := base_url self ++ "/audio/transcriptions";
     req_headers := [("Authorization", "Bearer " ++ api_key self)];
     req_body :=
       FilesBody
         [("file", FilePart (PyStr.basename audio_path) audio_path
                     (audio_mime_type audio_path));
          ("model", ValuePart "whisper-large-v3");
          ("response_format", ValuePart "json")] |}.

(** Lines 136-146: the payload of the completion request. *)
Definition completion_payload (prompt model : string) : pyval :=
  PDict
    [("model", PStr model);
     ("messages",
       PList [PDict [("role", PStr "user"); ("content", PStr prompt)]]);
     ("max_tokens", PInt 1000);
     ("temperature", PFloat "0.7")].

(** Lines 148-152. *)
Definition completion_request (self : GroqMultimodalProcessor)
    (prompt model : string) : request :=
  {| req_url := base_url self ++ "/chat/completions";
     req_headers := headers self;
     req_body := JsonBody (completion_payload prompt model) |}.

Definition default_model : string := "llama-3.3-70b-versatile".

(** [result["choices"][0]["message"]["content"]] *)
Definition first_choice_content (result : pyval) : exn + pyval :=
  match getitem result "choices" with
  | inl e => inl e
  | inr choices =>
      match getitem0 choices with
      | inl e => inl e
      | inr choice =>
          match getitem choice "message" with
          | inl e => inl e
          | inr message => getitem message "content"
          end
      end
  end.

Definition trailer : string :=
  PyStr.nl ++ PyStr.nl ++
  "Please provide a helpful response based on the above information:".

(** Lines 190-191. *)
Definition combined_prompt_of (context_parts : list string) : string :=
  PyStr.join PyStr.nl context_parts ++ trailer.

Section Oracles.

Context {World : Type} (rt : Runtime World).

Local Open Scope py_scope.

Definition path_exists (path : string) : M World bool :=
  call (PathChecked path)
       (fun w => match os_path_exists rt path w with (b, w') => (inr b, w') end).

Definition open_rb (path : string) : M World unit :=
  call (FileOpened path) (file_open rt path).

Definition read (path : string) : M World (list Byte.byte) :=
  call (FileRead path) (file_read rt path).

Definition post (r : request) : M World response :=
  call (Posted r) (requests_post rt r).

Definition Image_open (path : string) : M World image :=
  call (ImageOpened path) (image_open rt path).

(** Lines 80-86: the description from the local decoder. *)
Definition local_fallback (img_path : string) : M World pyval :=
  try_except
    (img <- Image_open img_path ;;
     ret (PStr ("Image uploaded: " ++ PyStr.basename img_path ++
                " (Size: " ++ PyStr.of_Z (width img) ++ "x" ++
                PyStr.of_Z (height img) ++ ", Mode: " ++ mode img ++
                "). Vision analysis temporarily unavailable.")))
    (fun _ =>
       ret (PStr ("Image uploaded: " ++ PyStr.basename img_path ++
                  ". Vision analysis temporarily unavailable."))).

End Oracles.

(** ** The methods of the class, over any standard output *)

Module Console.

Section Methods.

Context {World : Type} (rt : Runtime World) (out : Stdout World).

Local Open Scope py_scope.

(** Lines 17-24; [None] is the [None] of the code. *)
Definition encode_image (image_path : string) : M World (option string) :=
  try_except
    (open_rb rt image_path ;;;
     data <- read rt image_path ;;
     ret (Some (Base64.b64encode data)))
    (fun e =>
       print out ("Error encoding image: " ++ exn_str e) ;;;
       ret None).

(** Lines 26-90. *)
Definition generate_image_caption (self : GroqMultimodalProcessor)
    (img_path : option string) : M World pyval :=
  try_except
    (match img_path with
     | None => ret (PStr "No image provided")
     | Some path =>
         if negb (PyStr.truthy path) then ret (PStr "No image provided")
         else
           found <- path_exists rt path ;;
           if negb found then ret (PStr "No image provided")
           else
             base64_image <- encode_image path ;;
             match base64_image with
             | None => ret (PStr "Error encoding image")
             | Some encoded =>
                 if negb (PyStr.truthy encoded) then ret (PStr "Error encoding image")
                 else
                   response <- post rt (vision_request self path encoded) ;;
                   if (status_code response =? 200)%Z then
                     result <- lift (json response) ;;
                     lift (first_choice_content result)
                   else
                     print out ("Vision API error: " ++ text response) ;;;
                     local_fallback rt path
             end
     end)
    (fun e =>
       print out ("Error in generate_image_caption: " ++ exn_str e) ;;;
       ret (PStr ("Error processing image: " ++ exn_str e))).

(** Lines 92-131. *)
Definition speech_to_text (self : GroqMultimodalProcessor)
    (audio_path : option string) : M World pyval :=
  try_except
    (match audio_path with
     | None => ret (PStr "No audio provided")
     | Some path =>
         if negb (PyStr.truthy path) then ret (PStr "No audio provided")
         else
           found <- path_exists rt path ;;
           if negb found then ret (PStr "No audio provided")
           else
             print out ("Processing audio file: " ++ path) ;;;
             open_rb rt path ;;;
             response <- post rt (transcription_request self path) ;;
             if (status_code response =? 200)%Z then
               result <- lift (json response) ;;
               lift (dict_get result "text" (PStr "No text transcribed"))
             else
               print out ("Speech-to-text API error: " ++ text response) ;;;
               ret (PStr ("Speech-to-text error: " ++
                          PyStr.of_Z (status_code response)))
     end)
    (fun e =>
       print out ("Error processing audio: " ++ exn_str e) ;;;
       ret (PStr ("Error processing audio: " ++ exn_str e))).

(** Lines 133-163. *)
Definition query_groq_llm (self : GroqMultimodalProcessor)
    (prompt model : string) : M World pyval :=
  try_except
    (response <- post rt (completion_request self prompt model) ;;
     if (status_code response =? 200)%Z then
       result <- lift (json response) ;;
       lift (first_choice_content result)
     else
       print out ("LLM API error: " ++ text response) ;;;
       ret (PStr ("LLM error: " ++ PyStr.of_Z (status_code response))))
    (fun e =>
       print out ("Error with LLM: " ++ exn_str e) ;;;
       ret (PStr ("Error with LLM: " ++ exn_str e))).

(** Lines 167-183: the fragments, in the order the code appends them. *)
Definition collect_context (self : GroqMultimodalProcessor)
    (user_text user_image_path user_audio_path : option string)
  : M World (list string) :=
  let context_parts := [] in
  context_parts <-
    (match user_image_path with
     | Some path =>
         if PyStr.truthy path then
           print out ("Processing image: " ++ path) ;;;
           caption <- generate_image_caption self user_image_path ;;
           ret (app context_parts ["Image: " ++ py_str caption])
         else ret context_parts
     | None => ret context_parts
     end) ;;
  context_parts <-
    (match user_audio_path with
     | Some path =>
         if PyStr.truthy path then
           print out ("Processing audio: " ++ path) ;;;
           spoken_text <- speech_to_text self user_audio_path ;;
           ret (app context_parts ["Audio: " ++ py_str spoken_text])
         else ret context_parts
     | None => ret context_parts
     end) ;;
  match user_text with
  | Some typed =>
      if PyStr.truthy typed && PyStr.truthy (PyStr.strip typed) then
        ret (app context_parts ["User typed: " ++ typed])
      else ret context_parts
  | None => ret context_parts
  end.

(** Lines 165-196. *)
Definition multimodal_chat (self : GroqMultimodalProcessor)
    (user_text user_image_path user_audio_path : option string) : M World pyval :=
  context_parts <- collect_context self user_text user_image_path user_audio_path ;;
  match context_parts with
  | [] => ret (PStr "Please provide some input (text, image, or audio)!")
  | _ => query_groq_llm self (combined_prompt_of context_parts) default_model
  end.

End Methods.

End Console.

(** ** The methods of the class, on a standard output that takes every line *)

Section Methods.

Context {World : Type} (rt : Runtime World).

Definition encode_image : string -> M World (option string) :=
  Console.encode_image rt working.

Definition generate_image_caption
  : GroqMultimodalProcessor -> option string -> M World pyval :=
  Console.generate_image_caption rt working.

Definition speech_to_text
  : GroqMultimodalProcessor -> option string -> M World pyval :=
  Console.speech_to_text rt working.

Definition query_groq_llm
  : GroqMultimodalProcessor -> string -> string -> M World pyval :=
  Console.query_groq_llm rt working.

Definition collect_context
  : GroqMultimodalProcessor -> option string -> option string -> option string ->
    M World (list string) :=
  Console.collect_context rt working.

Definition multimodal_chat
  : GroqMultimodalProcessor -> option string -> option string -> option string ->
    M World pyval :=
  Console.multimodal_chat rt working.

End Methods.

(** ** The words of the specification *)

Module Spec.

(** The text does not count as input: it is absent, or blank once trimmed. *)
Definition blank (user_text : option string) : Prop :=
  user_text = None \/ exists s, user_text = Some s /\ PyStr.strip s = "".

(** [ext] is the extension of [path]: what follows its last dot. *)
Definition extension (path ext : string) : Prop :=
  PyStr.contains "." ext = false /\ exists stem, path = stem ++ "." ++ ext.

(** Step 3 of image-caption: [jpg] is [jpeg], other extensions are kept. *)
Definition image_subtype (ext : string) : string :=
  if String.eqb ext "jpg" then "jpeg" else ext.

(** Step 2 of speech-to-text. *)
Definition audio_mime (ext : string) : string :=
  if String.eqb ext "mp3" then "audio/mpeg"
  else if String.eqb ext "wav" then "audio/wav"
  else if String.eqb ext "ogg" then "audio/ogg"
  else "audio/" ++ ext.

(** The sentence of the local description of an image. *)
Definition described (name : string) (w h : Z) (m : string) : string :=
  "Image uploaded: " ++ name ++ " (Size: " ++ PyStr.of_Z w ++ "x" ++
  PyStr.of_Z h ++ ", Mode: " ++ m ++ "). Vision analysis temporarily unavailable.".

Definition undescribed (name : string) : string :=
  "Image uploaded: " ++ name ++ ". Vision analysis temporarily unavailable.".

(** The prompt of the example: the typed text [hi] alone. *)
Definition prompt_hi : string :=
  "User typed: hi" ++ PyStr.nl ++ PyStr.nl ++
  "Please provide a helpful response based on the above information:".

(** Step 3 of multimodal-chat: the fragment of a text that is given and not
    blank once trimmed. *)
Definition typed_fragment (user_text : option string) : list string :=
  match user_text with
  | None => []
  | Some typed =>
      match typed, PyStr.strip typed with
      | EmptyString, _ => []
      | _, EmptyString => []
      | _, _ => ["User typed: " ++ typed]
      end
  end.

(** The line the typed text adds to the combined prompt, after the lines of
    the image and of the audio: nothing when there is no fragment of it. *)
Definition typed_line (user_text : option string) : string :=
  match typed_fragment user_text with
  | [] => ""
  | fragment :: _ => PyStr.nl ++ fragment
  end.

(** The standard output takes every line in every world. *)
Definition accepts {World : Type} (out : Stdout World) : Prop :=
  forall line w, fst (out line w) = inr tt.

(** The URL of the image attached to a vision request:
    [payload["messages"][0]["content"][1]["image_url"]["url"]]. *)
Definition attached_url (r : request) : option pyval :=
  match req_body r with
  | JsonBody payload =>
      match getitem payload "messages" with
      | inr (PList (message :: _)) =>
          match getitem message "content" with
          | inr (PList (_ :: part :: _)) =>
              match getitem part "image_url" with
              | inr image_url =>
                  match getitem image_url "url" with
                  | inr url => Some url
                  | inl _ => None
                  end
              | inl _ => None
              end
          | _ => None
          end
      | _ => None
      end
  | FilesBody _ => None
  end.

(** The MIME type of the entry [file] of a transcription request. *)
Definition uploaded_mime (r : request) : option string :=
  match req_body r with
  | FilesBody (("file", FilePart _ _ mime) :: _) => Some mime
  | _ => None
  end.

(** A body of the provider that holds [answer] as the text of its first
    choice and as its transcript. *)
Definition body_of (answer : pyval) : pyval :=
  PDict [("choices", PList [PDict [("message", PDict [("content", answer)])]]);
         ("text", answer)].

(** What a parsed body must hold for the code to hand on a string: the value
    the code takes out of it, where there is one, is a [str]. *)
Definition holds_text (body : pyval) : Prop :=
  (forall v, first_choice_content body = inr v -> is_str v = true) /\
  (forall v, dict_get body "text" (PStr "No text transcribed") = inr v ->
             is_str v = true).

(** Every 200 answer of the transport holds text. *)
Definition answers_text {World : Type} (rt : Runtime World) : Prop :=
  forall r w resp w' body,
    requests_post rt r w = (inr resp, w') ->
    status_code resp = 200%Z ->
    json resp = inr body ->
    holds_text body.

(** A result that is a string when the transport answers text. *)
Definition text_result {World : Type} (rt : Runtime World) (v : pyval) : Prop :=
  answers_text rt -> is_str v = true.

End Spec.

(** ** A concrete environment *)

Module Mock.

(** An environment without state, given by what is on the disk, what the
    decoder makes of a file and what the server answers. *)
Definition runtime (content : string -> option (list Byte.byte))
    (decode : string -> exn + image) (answer : request -> exn + response)
  : Runtime unit :=
  {| os_path_exists := fun p w =>
       (match content p with Some _ => true | None => false end, w);
     file_open := fun p w =>
       (match content p with
        | Some _ => inr tt
        | None => inl (Exception "FileNotFoundError" "No such file or directory")
        end, w);
     file_read := fun p w =>
       (match content p with
        | Some data => inr data
        | None => inl (Exception "ValueError" "read of closed file")
        end, w);
     requests_post := fun r w => (answer r, w);
     image_open := fun p w => (decode p, w) |}.

Definition disk (p : string) : option (list Byte.byte) :=
  if String.eqb p "pics/Cat.JPG" then Some [Byte.x4d; Byte.x61; Byte.x6e]
  else if String.eqb p "pics/empty.png" then Some []
  else if String.eqb p "clips/Note.FLAC" then Some [Byte.x66; Byte.x4c]
  else None.

Definition decoder (p : string) : exn + image :=
  if String.eqb p "pics/Cat.JPG" then inr (mkImage 640 480 "RGB")
  else inl (Exception "UnidentifiedImageError" "cannot identify image file").

(** A server that answers every request with [answer]. *)
Definition up (answer : pyval) (r : request) : exn + response :=
  inr (mkResponse 200 "ok" (inr (Spec.body_of answer))).

(** A server that is out of service. *)
Definition down (r : request) : exn + response :=
  inr (mkResponse 503 "Service Unavailable"
         (inl (Exception "JSONDecodeError" "Expecting value: line 1 column 1 (char 0)"))).

(** The provider answers [hello] to every request. *)
Definition served : Runtime unit := runtime disk decoder (up (PStr "hello")).

(** The provider is out of service. *)
Definition unserved : Runtime unit := runtime disk decoder down.

(** The provider answers, and the text of its first choice is [null]. *)
Definition nulled : Runtime unit := runtime disk decoder (up PNone).

Definition start : state unit := mkState tt [].

Definition self : GroqMultimodalProcessor := init "gsk_test".

End Mock.

(** ** What goes over the wire *)

Module Wire.

(** The value of a header of a request. *)
Fixpoint header (name : string) (hs : list (string * string)) : option string :=
  match hs with
  | [] => None
  | (n, v) :: rest => if String.eqb n name then Some v else header name rest
  end.

(** A request goes to one of the two endpoints under the base URL and
    carries the bearer token of the processor. *)
Definition well_addressed (self : GroqMultimodalProcessor) (r : request) : Prop :=
  (req_url r = base_url self ++ "/chat/completions" \/
   req_url r = base_url self ++ "/audio/transcriptions") /\
  header "Authorization" (req_headers r) = Some ("Bearer " ++ api_key self).

(** Whether it returns or raises, a computation sends at most [n] requests,
    each of which satisfies [P]. *)
Definition sends {World A : Type} (c : M World A) (n : nat) (P : request -> Prop)
  : Prop :=
  forall st, exists r st' rs,
    c st = (r, st') /\
    posts (trace st') = (posts (trace st) ++ rs)%list /\
    length rs <= n /\
    Forall P rs.

(** A computation returns in every state, with a value that satisfies [Q]. *)
Definition returns {World A : Type} (c : M World A) (Q : A -> Prop) : Prop :=
  forall st, exists v st', c st = (inr v, st') /\ Q v.

(** The body of a 200 answer in which the code finds the text of the first
    choice: an object whose [choices] is a list that starts with an object,
    whose [message] is an object with a [content]. *)
Definition well_shaped (body content : pyval) : Prop :=
  exists entries choice rest message,
    body = PDict entries /\
    lookup "choices" entries = Some (PList (PDict choice :: rest)) /\
    lookup "message" choice = Some (PDict message) /\
    lookup "content" message = Some content.

End Wire.

(** ** Environments that fail *)

Module Faults.

Definition refused : exn := Exception "ConnectionError" "Connection refused".

Definition denied : exn := Exception "PermissionError" "Permission denied".

Definition closed_file : exn := Exception "ValueError" "I/O operation on closed file.".

(** A standard output that was closed: every [print] raises. *)
Definition closed : Stdout unit := fun _ w => (inl closed_file, w).

(** The files of [Mock.disk], and a transport that cannot connect. *)
Definition unreachable : Runtime unit :=
  Mock.runtime Mock.disk Mock.decoder (fun _ => inl refused).

(** Every path exists and none can be opened. *)
Definition locked : Runtime unit :=
  {| os_path_exists := fun _ w => (true, w);
     file_open := fun _ w => (inl denied, w);
     file_read := fun _ w => (inl denied, w);
     requests_post := fun r w => (Mock.up (PStr "hello") r, w);
     image_open := fun p w => (Mock.decoder p, w) |}.

(** Every path exists and opens, and no file can be read. *)
Definition unreadable : Runtime unit :=
  {| os_path_exists := fun _ w => (true, w);
     file_open := fun _ w => (inr tt, w);
     file_read := fun _ w => (inl denied, w);
     requests_post := fun r w => (Mock.up (PStr "hello") r, w);
     image_open := fun p w => (Mock.decoder p, w) |}.

(** The provider answers 200 with an empty JSON list. *)
Definition garbled : Runtime unit :=
  Mock.runtime Mock.disk Mock.decoder
    (fun _ => inr (mkResponse 200 "[]" (inr (PList [])))).

(** The provider answers 200 with a body that is no JSON. *)
Definition unparsed : Runtime unit :=
  Mock.runtime Mock.disk Mock.decoder
    (fun _ => inr (mkResponse 200 "<html>" (inl (Exception "JSONDecodeError"
                     "Expecting value: line 1 column 1 (char 0)")))).

End Faults.

(** ** Strings: what the proofs need *)

Lemma split_not_nil (sep : ascii) (s : string) : PyStr.split sep s <> [].
Proof.
  induction s as [|c r IH]; simpl; [discriminate|].
  destruct (Ascii.eqb c sep); [discriminate|].
  destruct (PyStr.split sep r); discriminate.
Qed.

Lemma last_item_cons (w : string) (ws : list string) :
  ws <> [] -> PyStr.last_item (w :: ws) = PyStr.last_item ws.
Proof. destruct ws; [congruence | reflexivity]. Qed.

(** Without its separator, a string is the only piece of its split. *)
Lemma split_without (sep : ascii) (s : string) :
  PyStr.contains sep s = false -> PyStr.split sep s = [s].
Proof.
  induction s as [|c r IH]; simpl; [reflexivity|].
  intros H. apply orb_false_iff in H. destruct H as [Hc Hr].
  rewrite Hc, (IH Hr). reflexivity.
Qed.

(** A string that holds the separator splits in two pieces at least. *)
Lemma split_at_separator (sep : ascii) (stem ext : string) :
  exists w w' ws, PyStr.split sep (stem ++ String sep ext) = w :: w' :: ws.
Proof.
  induction stem as [|c r (w & w' & ws & IH)]; simpl.
  - rewrite Ascii.eqb_refl.
    destruct (PyStr.split sep ext) as [|w' ws] eqn:E; [|eauto].
    destruct (split_not_nil _ _ E).
  - rewrite IH. destruct (Ascii.eqb c sep); eauto.
Qed.

(** The last piece of a split is what follows the last separator. *)
Lemma last_split_app (sep : ascii) (stem ext : string) :
  PyStr.contains sep ext = false ->
  PyStr.last_item (PyStr.split sep (stem ++ String sep ext)) = ext.
Proof.
  intros Hext. induction stem as [|c r IH]; simpl.
  - rewrite Ascii.eqb_refl, last_item_cons by apply split_not_nil.
    now rewrite split_without.
  - destruct (split_at_separator sep r ext) as (w & w' & ws & E).
    rewrite E in IH |- *. destruct (Ascii.eqb c sep); exact IH.
Qed.

Lemma append_assoc (a b c : string) : (a ++ b) ++ c = a ++ b ++ c.
Proof. induction a as [|x a IH]; simpl; [reflexivity | now rewrite IH]. Qed.

Lemma lower_app (a b : string) :
  PyStr.lower (a ++ b) = PyStr.lower a ++ PyStr.lower b.
Proof. induction a as [|c r IH]; simpl; [reflexivity | now rewrite IH]. Qed.

(** Lowering a character neither makes nor unmakes a dot. *)
Lemma lower_char_dot (c : ascii) :
  Ascii.eqb (PyStr.lower_char c) "." = Ascii.eqb c ".".
Proof. destruct c as [[] [] [] [] [] [] [] []]; reflexivity. Qed.

Lemma contains_dot_lower (s : string) :
  PyStr.contains "." (PyStr.lower s) = PyStr.contains "." s.
Proof.
  induction s as [|c r IH]; simpl; [reflexivity|].
  now rewrite lower_char_dot, IH.
Qed.

(** The format the code computes is the lowered extension. *)
Lemma format_of_extension (path ext : string) :
  Spec.extension path ext -> format_of path = PyStr.lower ext.
Proof.
  intros [Hdot [stem ->]]. unfold format_of.
  rewrite lower_app. simpl.
  change (String (PyStr.lower_char ".") (PyStr.lower ext))
    with (String "."%char (PyStr.lower ext)).
  apply last_split_app. now rewrite contains_dot_lower.
Qed.

(** A path without a dot is its own format, lowered. *)
Lemma format_of_dotless (path : string) :
  PyStr.contains "." path = false -> format_of path = PyStr.lower path.
Proof.
  intros H. unfold format_of.
  rewrite split_without by now rewrite contains_dot_lower.
  reflexivity.
Qed.

(** A path with an extension is not empty. *)
Lemma extension_truthy (path ext : string) :
  Spec.extension path ext -> PyStr.truthy path = true.
Proof. intros [_ [stem ->]]. now destruct stem. Qed.

(** Only the empty sequence of bytes has an empty encoding. *)
Lemma b64encode_truthy (data : list Byte.byte) :
  PyStr.truthy (Base64.b64encode data) = match data with [] => false | _ => true end.
Proof. destruct data as [|a [|b [|c r]]]; reflexivity. Qed.

(** A string is blank once trimmed when all its characters are spaces. *)
Lemma lstrip_spaces (s : string) :
  PyStr.lstrip s = "" <-> (forall c, PyStr.contains c s = true -> PyStr.is_space c = true).
Proof.
  induction s as [|a r IH]; simpl.
  - split; [discriminate | reflexivity].
  - destruct (PyStr.is_space a) eqn:Ea.
    + rewrite IH. split.
      * intros H c Hc. apply orb_true_iff in Hc. destruct Hc as [Hc | Hc].
        -- apply Ascii.eqb_eq in Hc. now subst.
        -- now apply H.
      * intros H c Hc. apply H. now rewrite Hc, orb_true_r.
    + split; [discriminate|].
      intros H. specialize (H a). rewrite Ascii.eqb_refl in H.
      simpl in H. rewrite Ea in H. discriminate H. reflexivity.
Qed.

Lemma rstrip_lstrip_empty (s : string) :
  PyStr.rstrip (PyStr.lstrip s) = "" -> PyStr.lstrip s = "".
Proof.
  induction s as [|a r IH]; simpl; [reflexivity|].
  destruct (PyStr.is_space a) eqn:Ea; [exact IH|].
  simpl. destruct (PyStr.rstrip r); [rewrite Ea|]; discriminate.
Qed.

Lemma strip_blank (s : string) :
  PyStr.strip s = "" <-> (forall c, PyStr.contains c s = true -> PyStr.is_space c = true).
Proof.
  rewrite <- lstrip_spaces. unfold PyStr.strip. split.
  - apply rstrip_lstrip_empty.
  - intros ->. reflexivity.
Qed.

(** ** The methods, run *)

Section Runs.

Context {World : Type} (rt : Runtime World).

Ltac unfold_run :=
  unfold multimodal_chat, collect_context, generate_image_caption, speech_to_text,
    query_groq_llm, encode_image;
  unfold Console.multimodal_chat, Console.collect_context,
    Console.generate_image_caption, Console.speech_to_text, Console.query_groq_llm,
    Console.encode_image, local_fallback, path_exists, open_rb, read, post,
    Image_open, try_except, bind, print, call, working, lift, ret, log; simpl.

Lemma posts_app (t u : list event) : posts (t ++ u) = (posts t ++ posts u)%list.
Proof.
  induction t as [|ev t IH]; simpl; [reflexivity|].
  destruct ev; simpl; now rewrite IH.
Qed.

(** Events other than requests leave the requests of a trace as they are. *)
Lemma posts_quiet (t u : list event) : posts u = [] -> posts (t ++ u) = posts t.
Proof. intros H. now rewrite posts_app, H, app_nil_r. Qed.

(** C2. With no image path, no audio path and a text that is absent or
    blank once trimmed, multimodal-chat answers with the fixed request for
    input and leaves the state as it was: no oracle is called, so that no
    request reaches the provider. *)
Theorem multimodal_chat_no_input :
  forall (self : GroqMultimodalProcessor)
         (user_text user_image_path user_audio_path : option string)
         (st : state World),
    given user_image_path = false ->
    given user_audio_path = false ->
    Spec.blank user_text ->
    multimodal_chat rt self user_text user_image_path user_audio_path st =
      (inr (PStr "Please provide some input (text, image, or audio)!"), st).
Proof.
  intros self user_text img aud st Hi Ha Ht.
  destruct img as [[|? ?]|]; try discriminate Hi;
    destruct aud as [[|? ?]|]; try discriminate Ha;
    (destruct Ht as [-> | [s [-> Hs]]];
     [reflexivity | unfold_run; rewrite Hs; simpl; now rewrite andb_false_r]).
Qed.

(** C4. For a path that is absent, empty or names no file, image-caption
    answers [No image provided] and speech-to-text answers
    [No audio provided], and neither sends a request. *)
Theorem no_media_no_request :
  forall (self : GroqMultimodalProcessor) (path : option string) (st : state World),
    (given path = false \/
     exists p, path = Some p /\ fst (os_path_exists rt p (world st)) = false) ->
    (exists st',
        generate_image_caption rt self path st = (inr (PStr "No image provided"), st') /\
        posts (trace st') = posts (trace st)) /\
    (exists st',
        speech_to_text rt self path st = (inr (PStr "No audio provided"), st') /\
        posts (trace st') = posts (trace st)).
Proof.
  intros self path st [Hg | [p [-> Hp]]].
  - destruct path as [[|? ?]|]; try discriminate Hg;
      (split; exists st; split; reflexivity).
  - destruct p as [|c r]; [split; exists st; split; reflexivity|].
    destruct (os_path_exists rt (String c r) (world st)) as [b w] eqn:E.
    simpl in Hp. subst b.
    split; unfold_run; rewrite E; simpl;
      (eexists; split; [reflexivity | simpl; now apply posts_quiet]).
Qed.

(** C10. For a file that exists and holds no byte, encode-binary-to-text
    returns the empty string, and image-caption, for which the empty string
    counts as a failure, answers [Error encoding image] without sending a
    request. *)
Theorem empty_image_file :
  forall (self : GroqMultimodalProcessor) (img_path : string) (st : state World)
         (w1 w2 w3 : World),
    PyStr.truthy img_path = true ->
    os_path_exists rt img_path (world st) = (true, w1) ->
    file_open rt img_path w1 = (inr tt, w2) ->
    file_read rt img_path w2 = (inr [], w3) ->
    (forall t, fst (encode_image rt img_path (mkState w1 t)) = inr (Some "")) /\
    exists st',
      generate_image_caption rt self (Some img_path) st =
        (inr (PStr "Error encoding image"), st') /\
      posts (trace st') = posts (trace st).
Proof.
  intros self img_path st w1 w2 w3 Hp He Ho Hr. split.
  - intros t. unfold_run. rewrite Ho. simpl. now rewrite Hr.
  - unfold_run. rewrite Hp. simpl. rewrite He. simpl. rewrite Ho. simpl. rewrite Hr. simpl.
    eexists; split; [reflexivity|]. simpl.
    rewrite <- !app_assoc. now apply posts_quiet.
Qed.

(** C1. With the text [hi] and neither image nor audio, multimodal-chat
    is the completion of the prompt [User typed: hi], two newlines and the
    closing instruction; when the request of that prompt is answered with
    200 and a body whose first choice holds [answer], multimodal-chat
    returns [answer] as it is, and that request is the only event. *)
Theorem typed_text_prompt :
  forall (self : GroqMultimodalProcessor) (st : state World),
    multimodal_chat rt self (Some "hi") None None st =
      query_groq_llm rt self Spec.prompt_hi default_model st /\
    forall (resp : response) (w' : World) (body answer : pyval),
      requests_post rt (completion_request self Spec.prompt_hi default_model) (world st)
        = (inr resp, w') ->
      status_code resp = 200%Z ->
      json resp = inr body ->
      first_choice_content body = inr answer ->
      multimodal_chat rt self (Some "hi") None None st =
        (inr answer,
         mkState w' (trace st ++
                     [Posted (completion_request self Spec.prompt_hi default_model)])).
Proof.
  intros self st. split; [reflexivity|].
  intros resp w' body answer Hpost H200 Hjson Hans.
  change (multimodal_chat rt self (Some "hi") None None st)
    with (query_groq_llm rt self Spec.prompt_hi default_model st).
  unfold_run. rewrite Hpost. simpl. rewrite H200. simpl.
  rewrite Hjson, Hans. reflexivity.
Qed.

(** C5. For a file that exists, is read (so that a request is sent) and
    whose vision request is answered with a status other than 200,
    image-caption returns the local description with the base name, the
    size and the mode when the decoder opens the file, and the description
    with the base name alone when the decoder fails. *)
Theorem vision_unavailable_fallback :
  forall (self : GroqMultimodalProcessor) (img_path : string) (st : state World)
         (w1 w2 w3 w4 : World) (data : list Byte.byte) (resp : response),
    PyStr.truthy img_path = true ->
    os_path_exists rt img_path (world st) = (true, w1) ->
    file_open rt img_path w1 = (inr tt, w2) ->
    file_read rt img_path w2 = (inr data, w3) ->
    data <> [] ->
    requests_post rt (vision_request self img_path (Base64.b64encode data)) w3
      = (inr resp, w4) ->
    status_code resp <> 200%Z ->
    (forall (img : image) (w5 : World),
        image_open rt img_path w4 = (inr img, w5) ->
        fst (generate_image_caption rt self (Some img_path) st) =
          inr (PStr (Spec.described (PyStr.basename img_path)
                       (width img) (height img) (mode img)))) /\
    (forall (e : exn) (w5 : World),
        image_open rt img_path w4 = (inl e, w5) ->
        fst (generate_image_caption rt self (Some img_path) st) =
          inr (PStr (Spec.undescribed (PyStr.basename img_path)))).
Proof.
  intros self img_path st w1 w2 w3 w4 data resp Hp He Ho Hr Hd Hpost Hs.
  assert (Ht : PyStr.truthy (Base64.b64encode data) = true).
  { rewrite b64encode_truthy. destruct data; congruence. }
  apply Z.eqb_neq in Hs.
  split; intros x w5 Hi; unfold_run;
    rewrite Hp; simpl; rewrite He; simpl; rewrite Ho; simpl; rewrite Hr; simpl;
    rewrite Ht; simpl; rewrite Hpost; simpl; rewrite Hs; simpl; rewrite Hi;
    reflexivity.
Qed.

(** C6. For an audio file that exists and is opened, and a response to
    the transcription request: with status 200 and a JSON object as body,
    speech-to-text returns the value of [text], or [No text transcribed]
    when the object has no such field; with another status it returns
    [Speech-to-text error: ] and the status code. *)
Theorem transcription_response :
  forall (self : GroqMultimodalProcessor) (audio_path : string) (st : state World)
         (w1 w2 w3 : World) (resp : response),
    PyStr.truthy audio_path = true ->
    os_path_exists rt audio_path (world st) = (true, w1) ->
    file_open rt audio_path w1 = (inr tt, w2) ->
    requests_post rt (transcription_request self audio_path) w2 = (inr resp, w3) ->
    (status_code resp = 200%Z ->
     forall entries : list (string * pyval),
       json resp = inr (PDict entries) ->
       fst (speech_to_text rt self (Some audio_path) st) =
         inr (match lookup "text" entries with
              | Some transcript => transcript
              | None => PStr "No text transcribed"
              end)) /\
    (status_code resp <> 200%Z ->
     fst (speech_to_text rt self (Some audio_path) st) =
       inr (PStr ("Speech-to-text error: " ++ PyStr.of_Z (status_code resp)))).
Proof.
  intros self audio_path st w1 w2 w3 resp Hp He Ho Hpost.
  split.
  - intros Hs entries Hj. unfold_run.
    rewrite Hp; simpl; rewrite He; simpl; rewrite Ho; simpl; rewrite Hpost; simpl.
    rewrite Hs, Hj. simpl. now destruct (lookup "text" entries).
  - intros Hs. apply Z.eqb_neq in Hs. unfold_run.
    rewrite Hp; simpl; rewrite He; simpl; rewrite Ho; simpl; rewrite Hpost; simpl.
    now rewrite Hs.
Qed.

(** *** No exception leaves a method *)

(** Case analysis on what the next test of the code looks at. *)
Ltac next_test :=
  match goal with
  | |- context [match ?x with _ => _ end] =>
      lazymatch x with
      | context [match _ with _ => _ end] => fail
      | _ => destruct x eqn:?; simpl
      end
  end.

(** What a 200 answer holds, once the transport answers text. *)
Ltac from_answer Hrt :=
  match goal with
  | Hpost : requests_post rt _ _ = (inr ?resp, _),
    Hs : (status_code ?resp =? 200)%Z = true,
    Hj : json ?resp = inr ?body |- _ =>
      let Hc := fresh "Hc" in
      let Hg := fresh "Hg" in
      destruct (Hrt _ _ _ _ _ Hpost (proj1 (Z.eqb_eq _ _) Hs) Hj) as [Hc Hg];
      auto
  end.

Ltac settle :=
  unfold_run; repeat next_test;
  (eexists; eexists; split;
   [reflexivity | first [reflexivity | let Hrt := fresh "Hrt" in intros Hrt; from_answer Hrt]]).

(** image-caption returns, and returns a string when the transport
    answers text. *)
Lemma generate_image_caption_returns
    (self : GroqMultimodalProcessor) (img_path : option string) (st : state World) :
  exists v st',
    generate_image_caption rt self img_path st = (inr v, st') /\
    (Spec.answers_text rt -> is_str v = true).
Proof. settle. Qed.

Lemma speech_to_text_returns
    (self : GroqMultimodalProcessor) (audio_path : option string) (st : state World) :
  exists v st',
    speech_to_text rt self audio_path st = (inr v, st') /\
    (Spec.answers_text rt -> is_str v = true).
Proof. settle. Qed.

Lemma query_groq_llm_returns
    (self : GroqMultimodalProcessor) (prompt model : string) (st : state World) :
  exists v st',
    query_groq_llm rt self prompt model st = (inr v, st') /\
    (Spec.answers_text rt -> is_str v = true).
Proof. settle. Qed.

(** X14. The one request of image-caption is the vision request of the path
    and of the encoding of the file, whatever the transport answers. *)
Lemma generate_image_caption_posts
    (self : GroqMultimodalProcessor) (img_path : string) (st : state World)
    (w1 w2 w3 : World) (data : list Byte.byte) :
  PyStr.truthy img_path = true ->
  os_path_exists rt img_path (world st) = (true, w1) ->
  file_open rt img_path w1 = (inr tt, w2) ->
  file_read rt img_path w2 = (inr data, w3) ->
  data <> [] ->
  posts (trace (snd (generate_image_caption rt self (Some img_path) st))) =
    (posts (trace st) ++ [vision_request self img_path (Base64.b64encode data)])%list.
Proof.
  intros Hp He Ho Hr Hd.
  assert (Ht : PyStr.truthy (Base64.b64encode data) = true).
  { rewrite b64encode_truthy. destruct data; congruence. }
  unfold_run.
  rewrite Hp; simpl; rewrite He; simpl; rewrite Ho; simpl; rewrite Hr; simpl.
  rewrite Ht; simpl.
  repeat next_test; repeat rewrite <- app_assoc; simpl; now rewrite posts_app.
Qed.

(** X15. The one request of speech-to-text is the transcription request of
    the path, whatever the transport answers. *)
Lemma speech_to_text_posts
    (self : GroqMultimodalProcessor) (audio_path : string) (st : state World)
    (w1 w2 : World) :
  PyStr.truthy audio_path = true ->
  os_path_exists rt audio_path (world st) = (true, w1) ->
  file_open rt audio_path w1 = (inr tt, w2) ->
  posts (trace (snd (speech_to_text rt self (Some audio_path) st))) =
    (posts (trace st) ++ [transcription_request self audio_path])%list.
Proof.
  intros Hp He Ho.
  unfold_run.
  rewrite Hp; simpl; rewrite He; simpl; rewrite Ho; simpl.
  repeat next_test; repeat rewrite <- app_assoc; simpl; now rewrite posts_app.
Qed.

(** C7. When image-caption sends its request (the file exists, is read
    and holds bytes), that request is the only one, and the image subtype
    of the data URI it carries is the extension of the image path,
    lowered, with [jpg] turned into [jpeg] and any other extension kept;
    the data of the URI is the Base64 text of the file. *)
Theorem image_subtype_of_extension :
  forall (self : GroqMultimodalProcessor) (img_path ext : string) (st : state World)
         (w1 w2 w3 : World) (data : list Byte.byte),
    Spec.extension img_path ext ->
    os_path_exists rt img_path (world st) = (true, w1) ->
    file_open rt img_path w1 = (inr tt, w2) ->
    file_read rt img_path w2 = (inr data, w3) ->
    data <> [] ->
    exists r : request,
      posts (trace (snd (generate_image_caption rt self (Some img_path) st))) =
        (posts (trace st) ++ [r])%list /\
      Spec.attached_url r =
        Some (PStr ("data:image/" ++ Spec.image_subtype (PyStr.lower ext) ++
                    ";base64," ++ Base64.b64encode data)).
Proof.
  intros self img_path ext st w1 w2 w3 data Hext He Ho Hr Hd.
  pose proof (extension_truthy _ _ Hext) as Hp.
  assert (Ht : PyStr.truthy (Base64.b64encode data) = true).
  { rewrite b64encode_truthy. destruct data; congruence. }
  exists (vision_request self img_path (Base64.b64encode data)). split.
  - unfold_run.
    rewrite Hp; simpl; rewrite He; simpl; rewrite Ho; simpl; rewrite Hr; simpl.
    rewrite Ht; simpl.
    repeat next_test; repeat rewrite <- app_assoc; simpl; now rewrite posts_app.
  - unfold Spec.attached_url, vision_request, vision_payload, data_uri. simpl.
    unfold image_format_of, Spec.image_subtype.
    now rewrite (format_of_extension _ _ Hext).
Qed.

(** C8, as the code has it. When speech-to-text sends its request (the
    file exists and is opened), that request is the only one, and the MIME
    type of the file it uploads comes from the extension of the audio path,
    lowered: [mp3] gives [audio/mpeg], [wav] gives [audio/wav], [ogg] gives
    [audio/ogg], and any other lowered extension [ext] gives [audio/ext]. *)
Theorem audio_mime_of_lowered_extension :
  forall (self : GroqMultimodalProcessor) (audio_path ext : string) (st : state World)
         (w1 w2 : World),
    Spec.extension audio_path ext ->
    os_path_exists rt audio_path (world st) = (true, w1) ->
    file_open rt audio_path w1 = (inr tt, w2) ->
    exists r : request,
      posts (trace (snd (speech_to_text rt self (Some audio_path) st))) =
        (posts (trace st) ++ [r])%list /\
      Spec.uploaded_mime r = Some (Spec.audio_mime (PyStr.lower ext)).
Proof.
  intros self audio_path ext st w1 w2 Hext He Ho.
  pose proof (extension_truthy _ _ Hext) as Hp.
  exists (transcription_request self audio_path). split.
  - unfold_run.
    rewrite Hp; simpl; rewrite He; simpl; rewrite Ho; simpl.
    repeat next_test; repeat rewrite <- app_assoc; simpl; now rewrite posts_app.
  - unfold Spec.uploaded_mime, transcription_request. simpl.
    unfold audio_mime_type, Spec.audio_mime.
    now rewrite (format_of_extension _ _ Hext).
Qed.

Lemma typed_fragment_run (user_text : option string) (parts : list string)
    (st : state World) :
  match user_text with
  | Some typed =>
      if PyStr.truthy typed && PyStr.truthy (PyStr.strip typed)
      then ret (app parts ["User typed: " ++ typed])
      else ret parts
  | None => ret parts
  end st = (inr (parts ++ Spec.typed_fragment user_text)%list, st).
Proof.
  destruct user_text as [typed|]; simpl; [|now rewrite app_nil_r].
  destruct typed as [|c r]; simpl; [now rewrite app_nil_r|].
  destruct (PyStr.strip (String c r)); simpl; [now rewrite app_nil_r | reflexivity].
Qed.

(** C9. With an image path and an audio path, the caption is asked for
    first and the transcript second; the fragments are, in this order, the
    one of the image, the one of the audio and, when the text is given and
    not blank, the one of the text; and the combined prompt that goes to
    text-completion is the line [Image: ...], a newline, the line
    [Audio: ...], the line of the typed text if there is one, two newlines
    and the closing instruction. *)
Theorem image_fragment_before_audio :
  forall (self : GroqMultimodalProcessor) (user_text : option string)
         (img aud : string) (st : state World),
    PyStr.truthy img = true ->
    PyStr.truthy aud = true ->
    exists (caption spoken : pyval) (st1 st2 : state World),
      generate_image_caption rt self (Some img)
        (log (Printed ("Processing image: " ++ img)) st) = (inr caption, st1) /\
      speech_to_text rt self (Some aud)
        (log (Printed ("Processing audio: " ++ aud)) st1) = (inr spoken, st2) /\
      collect_context rt self user_text (Some img) (Some aud) st =
        (inr (("Image: " ++ py_str caption) :: ("Audio: " ++ py_str spoken) ::
              Spec.typed_fragment user_text), st2) /\
      multimodal_chat rt self user_text (Some img) (Some aud) st =
        query_groq_llm rt self
          ("Image: " ++ py_str caption ++ PyStr.nl ++
           "Audio: " ++ py_str spoken ++ Spec.typed_line user_text ++
           PyStr.nl ++ PyStr.nl ++
           "Please provide a helpful response based on the above information:")
          default_model st2.
Proof.
  intros self user_text img aud st Hi Ha.
  destruct (generate_image_caption_returns self (Some img)
              (log (Printed ("Processing image: " ++ img)) st))
    as [caption [st1 [Hc _]]].
  destruct (speech_to_text_returns self (Some aud)
              (log (Printed ("Processing audio: " ++ aud)) st1))
    as [spoken [st2 [Hs _]]].
  exists caption, spoken, st1, st2.
  split; [exact Hc|]. split; [exact Hs|].
  assert (E : collect_context rt self user_text (Some img) (Some aud) st =
              (inr (("Image: " ++ py_str caption) :: ("Audio: " ++ py_str spoken) ::
                    Spec.typed_fragment user_text), st2)).
  { unfold generate_image_caption, working, log in Hc.
    unfold speech_to_text, working, log in Hs.
    unfold collect_context, Console.collect_context. rewrite Hi, Ha.
    cbv [bind print call working ret].
    rewrite Hc. cbv beta iota. rewrite Hs. cbv beta iota.
    apply typed_fragment_run. }
  split; [exact E|].
  unfold multimodal_chat, collect_context in *. unfold Console.multimodal_chat, bind.
  rewrite E. unfold query_groq_llm. f_equal.
  unfold combined_prompt_of, trailer, Spec.typed_line.
  destruct (Spec.typed_fragment user_text) as [|fragment [|more rest]] eqn:Ef.
  - cbn [PyStr.join]. rewrite !append_assoc. reflexivity.
  - cbn [PyStr.join]. rewrite !append_assoc. reflexivity.
  - exfalso. destruct user_text as [typed|]; [|discriminate Ef].
    simpl in Ef. destruct typed; [discriminate|].
    destruct (PyStr.strip _); discriminate.
Qed.

End Runs.

(** ** The methods, on any standard output *)

Section Consoles.

Context {World : Type} (rt : Runtime World) (out : Stdout World).

Ltac unfold_console :=
  unfold Console.multimodal_chat, Console.collect_context,
    Console.generate_image_caption, Console.speech_to_text, Console.query_groq_llm,
    Console.encode_image, local_fallback, path_exists, open_rb, read, post,
    Image_open, try_except, bind, print, call, lift, ret, log; simpl.

Ltac next_test :=
  match goal with
  | |- context [match ?x with _ => _ end] =>
      lazymatch x with
      | context [match _ with _ => _ end] => fail
      | _ => destruct x eqn:?; simpl
      end
  end.

(** A [print] that raised, on a standard output that takes every line. *)
Ltac refused Hacc :=
  match goal with
  | E : out ?line ?w = (inl _, _) |- _ =>
      let H := fresh "H" in
      pose proof (Hacc line w) as H; rewrite E in H; simpl in H; discriminate H
  end.

Ltac from_answer Hrt :=
  match goal with
  | Hpost : requests_post rt _ _ = (inr ?resp, _),
    Hs : (status_code ?resp =? 200)%Z = true,
    Hj : json ?resp = inr ?body |- _ =>
      let Hc := fresh "Hc" in
      let Hg := fresh "Hg" in
      destruct (Hrt _ _ _ _ _ Hpost (proj1 (Z.eqb_eq _ _) Hs) Hj) as [Hc Hg];
      auto
  end.

Ltac settle Hacc :=
  intros st; unfold_console; repeat next_test;
  first
    [ refused Hacc
    | eexists; eexists; split;
      [reflexivity
      | first [reflexivity
              | let Hrt := fresh "Hrt" in intros Hrt; from_answer Hrt]] ].

Lemma returns_ret {A : Type} (x : A) (Q : A -> Prop) :
  Q x -> Wire.returns (ret (World := World) x) Q.
Proof. intros HQ st. now exists x, st. Qed.

Lemma returns_bind {A B : Type} (c : M World A) (k : A -> M World B)
    (P : A -> Prop) (Q : B -> Prop) :
  Wire.returns c P -> (forall x, P x -> Wire.returns (k x) Q) ->
  Wire.returns (bind c k) Q.
Proof.
  intros Hc Hk st. unfold bind.
  destruct (Hc st) as (x & st1 & -> & HP). exact (Hk x HP st1).
Qed.

Lemma returns_print (line : string) :
  Spec.accepts out -> Wire.returns (print out line) (fun _ => True).
Proof.
  intros Hacc st. unfold print, call.
  pose proof (Hacc line (world st)) as H.
  destruct (out line (world st)) as [r w]. simpl in H. subst r.
  now eexists; eexists.
Qed.

Lemma generate_image_caption_console (self : GroqMultimodalProcessor)
    (img_path : option string) :
  Spec.accepts out ->
  Wire.returns (Console.generate_image_caption rt out self img_path)
    (Spec.text_result rt).
Proof. intros Hacc. unfold Spec.text_result. settle Hacc. Qed.

Lemma speech_to_text_console (self : GroqMultimodalProcessor)
    (audio_path : option string) :
  Spec.accepts out ->
  Wire.returns (Console.speech_to_text rt out self audio_path) (Spec.text_result rt).
Proof. intros Hacc. unfold Spec.text_result. settle Hacc. Qed.

Lemma query_groq_llm_console (self : GroqMultimodalProcessor) (prompt model : string) :
  Spec.accepts out ->
  Wire.returns (Console.query_groq_llm rt out self prompt model) (Spec.text_result rt).
Proof. intros Hacc. unfold Spec.text_result. settle Hacc. Qed.

Lemma collect_context_console (self : GroqMultimodalProcessor)
    (user_text user_image_path user_audio_path : option string) :
  Spec.accepts out ->
  Wire.returns
    (Console.collect_context rt out self user_text user_image_path user_audio_path)
    (fun _ => True).
Proof.
  intros Hacc. unfold Console.collect_context.
  apply returns_bind with (P := fun _ => True).
  - destruct user_image_path as [path|]; [|now apply returns_ret].
    destruct (PyStr.truthy path); [|now apply returns_ret].
    eapply returns_bind; [now apply returns_print|]. intros _ _.
    eapply returns_bind; [now apply generate_image_caption_console|].
    intros caption _. now apply returns_ret.
  - intros parts _. apply returns_bind with (P := fun _ => True).
    + destruct user_audio_path as [path|]; [|now apply returns_ret].
      destruct (PyStr.truthy path); [|now apply returns_ret].
      eapply returns_bind; [now apply returns_print|]. intros _ _.
      eapply returns_bind; [now apply speech_to_text_console|].
      intros spoken _. now apply returns_ret.
    + intros parts' _. destruct user_text as [typed|]; [|now apply returns_ret].
      destruct (PyStr.truthy typed && PyStr.truthy (PyStr.strip typed));
        now apply returns_ret.
Qed.

Lemma multimodal_chat_console (self : GroqMultimodalProcessor)
    (user_text user_image_path user_audio_path : option string) :
  Spec.accepts out ->
  Wire.returns
    (Console.multimodal_chat rt out self user_text user_image_path user_audio_path)
    (Spec.text_result rt).
Proof.
  intros Hacc. unfold Console.multimodal_chat.
  eapply returns_bind; [now apply collect_context_console|].
  intros [|part rest] _.
  - apply returns_ret. intros _. reflexivity.
  - now apply query_groq_llm_console.
Qed.

(** C3, as the code has it. On a standard output that takes every line
    the operations print, and for every input and every behaviour of the
    file system, the transport and the decoder, each of image-caption,
    speech-to-text, text-completion and multimodal-chat returns a value and
    raises nothing; the value is a string whenever the bodies of the 200
    answers hold a string where the code takes its result (the text of the
    first choice, the field [text]). *)
Theorem operations_return :
  forall self : GroqMultimodalProcessor,
    Spec.accepts out ->
    (forall img_path st, exists v st',
        Console.generate_image_caption rt out self img_path st = (inr v, st') /\
        (Spec.answers_text rt -> is_str v = true)) /\
    (forall audio_path st, exists v st',
        Console.speech_to_text rt out self audio_path st = (inr v, st') /\
        (Spec.answers_text rt -> is_str v = true)) /\
    (forall prompt model st, exists v st',
        Console.query_groq_llm rt out self prompt model st = (inr v, st') /\
        (Spec.answers_text rt -> is_str v = true)) /\
    (forall user_text user_image_path user_audio_path st, exists v st',
        Console.multimodal_chat rt out self user_text user_image_path user_audio_path st
          = (inr v, st') /\
        (Spec.answers_text rt -> is_str v = true)).
Proof.
  intros self Hacc. repeat split; intros.
  - now apply generate_image_caption_console.
  - now apply speech_to_text_console.
  - now apply query_groq_llm_console.
  - now apply multimodal_chat_console.
Qed.

End Consoles.

(** ** The theorems at work on the concrete environment *)

Lemma served_answers_text : Spec.answers_text Mock.served.
Proof.
  intros r w resp w' body Hpost _ Hjson.
  inversion Hpost; subst resp. inversion Hjson; subst body.
  split; intros v Hv; inversion Hv; reflexivity.
Defined.

Lemma multimodal_chat_no_input_witness :
  multimodal_chat Mock.unserved Mock.self (Some "  ") None (Some "") Mock.start =
    (inr (PStr "Please provide some input (text, image, or audio)!"), Mock.start).
Proof.
  apply (multimodal_chat_no_input Mock.unserved Mock.self (Some "  ") None (Some "")
           Mock.start).
  - reflexivity.
  - reflexivity.
  - right. exists "  ". split; reflexivity.
Defined.

Lemma no_media_no_request_witness :
  (exists st',
      generate_image_caption Mock.served Mock.self (Some "pics/gone.png") Mock.start =
        (inr (PStr "No image provided"), st') /\
      posts (trace st') = posts (trace Mock.start)) /\
  (exists st',
      speech_to_text Mock.served Mock.self (Some "pics/gone.png") Mock.start =
        (inr (PStr "No audio provided"), st') /\
      posts (trace st') = posts (trace Mock.start)).
Proof.
  apply (no_media_no_request Mock.served Mock.self (Some "pics/gone.png") Mock.start).
  right. exists "pics/gone.png". split; reflexivity.
Defined.

Lemma empty_image_file_witness :
  (forall t, fst (encode_image Mock.served "pics/empty.png" (mkState tt t)) =
             inr (Some "")) /\
  exists st',
    generate_image_caption Mock.served Mock.self (Some "pics/empty.png") Mock.start =
      (inr (PStr "Error encoding image"), st') /\
    posts (trace st') = posts (trace Mock.start).
Proof.
  apply (empty_image_file Mock.served Mock.self "pics/empty.png" Mock.start tt tt tt);
    reflexivity.
Defined.

Lemma typed_text_prompt_witness :
  multimodal_chat Mock.served Mock.self (Some "hi") None None Mock.start =
    (inr (PStr "hello"),
     mkState tt [Posted (completion_request Mock.self Spec.prompt_hi default_model)]).
Proof.
  apply (proj2 (typed_text_prompt Mock.served Mock.self Mock.start)
           (mkResponse 200 "ok" (inr (Spec.body_of (PStr "hello")))) tt
           (Spec.body_of (PStr "hello")) (PStr "hello"));
    reflexivity.
Defined.

Lemma vision_unavailable_fallback_witness :
  fst (generate_image_caption Mock.unserved Mock.self (Some "pics/Cat.JPG") Mock.start) =
    inr (PStr (Spec.described "Cat.JPG" 640 480 "RGB")).
Proof.
  apply (proj1 (vision_unavailable_fallback Mock.unserved Mock.self "pics/Cat.JPG"
                  Mock.start tt tt tt tt [Byte.x4d; Byte.x61; Byte.x6e]
                  (mkResponse 503 "Service Unavailable"
                     (inl (Exception "JSONDecodeError"
                             "Expecting value: line 1 column 1 (char 0)")))
                  eq_refl eq_refl eq_refl eq_refl
                  ltac:(discriminate) eq_refl ltac:(discriminate))
           (mkImage 640 480 "RGB") tt).
  reflexivity.
Defined.

Lemma transcription_response_witness :
  fst (speech_to_text Mock.served Mock.self (Some "clips/Note.FLAC") Mock.start) =
    inr (PStr "hello").
Proof.
  apply (proj1 (transcription_response Mock.served Mock.self "clips/Note.FLAC"
                  Mock.start tt tt tt
                  (mkResponse 200 "ok" (inr (Spec.body_of (PStr "hello"))))
                  eq_refl eq_refl eq_refl eq_refl)
           eq_refl
           [("choices", PList [PDict [("message", PDict [("content", PStr "hello")])]]);
            ("text", PStr "hello")]).
  reflexivity.
Defined.

Lemma cat_extension : Spec.extension "pics/Cat.JPG" "JPG".
Proof. split; [reflexivity | exists "pics/Cat"; reflexivity]. Defined.

Lemma note_extension : Spec.extension "clips/Note.FLAC" "FLAC".
Proof. split; [reflexivity | exists "clips/Note"; reflexivity]. Defined.

Lemma image_subtype_of_extension_witness :
  exists r : request,
    posts (trace (snd (generate_image_caption Mock.served Mock.self
                         (Some "pics/Cat.JPG") Mock.start))) =
      (posts (trace Mock.start) ++ [r])%list /\
    Spec.attached_url r =
      Some (PStr ("data:image/" ++ Spec.image_subtype (PyStr.lower "JPG") ++
                  ";base64," ++ Base64.b64encode [Byte.x4d; Byte.x61; Byte.x6e])).
Proof.
  apply (image_subtype_of_extension Mock.served Mock.self "pics/Cat.JPG" "JPG"
           Mock.start tt tt tt [Byte.x4d; Byte.x61; Byte.x6e] cat_extension).
  - reflexivity.
  - reflexivity.
  - reflexivity.
  - discriminate.
Defined.

Lemma audio_mime_of_lowered_extension_witness :
  exists r : request,
    posts (trace (snd (speech_to_text Mock.served Mock.self
                         (Some "clips/Note.FLAC") Mock.start))) =
      (posts (trace Mock.start) ++ [r])%list /\
    Spec.uploaded_mime r = Some (Spec.audio_mime (PyStr.lower "FLAC")).
Proof.
  apply (audio_mime_of_lowered_extension Mock.served Mock.self "clips/Note.FLAC"
           "FLAC" Mock.start tt tt note_extension).
  - reflexivity.
  - reflexivity.
Defined.

(** C8, as it is stated, fails: the extension [FLAC] of [clips/Note.FLAC]
    would give [audio/FLAC], and the one request of speech-to-text uploads
    the file as [audio/flac]. *)
Lemma audio_mime_not_of_extension :
  Spec.extension "clips/Note.FLAC" "FLAC" /\
  exists r : request,
    posts (trace (snd (speech_to_text Mock.served Mock.self
                         (Some "clips/Note.FLAC") Mock.start))) = [r] /\
    Spec.uploaded_mime r = Some "audio/flac" /\
    Spec.uploaded_mime r <> Some (Spec.audio_mime "FLAC").
Proof.
  split; [exact note_extension|].
  exists (transcription_request Mock.self "clips/Note.FLAC").
  split; [reflexivity|]. split; [reflexivity | discriminate].
Qed.

Lemma image_fragment_before_audio_witness :
  exists (caption spoken : pyval) (st1 st2 : state unit),
    generate_image_caption Mock.served Mock.self (Some "pics/Cat.JPG")
      (log (Printed "Processing image: pics/Cat.JPG") Mock.start) = (inr caption, st1) /\
    speech_to_text Mock.served Mock.self (Some "clips/Note.FLAC")
      (log (Printed "Processing audio: clips/Note.FLAC") st1) = (inr spoken, st2) /\
    collect_context Mock.served Mock.self (Some "hi") (Some "pics/Cat.JPG")
      (Some "clips/Note.FLAC") Mock.start =
      (inr (("Image: " ++ py_str caption) :: ("Audio: " ++ py_str spoken) ::
            Spec.typed_fragment (Some "hi")), st2) /\
    multimodal_chat Mock.served Mock.self (Some "hi") (Some "pics/Cat.JPG")
      (Some "clips/Note.FLAC") Mock.start =
      query_groq_llm Mock.served Mock.self
        ("Image: " ++ py_str caption ++ PyStr.nl ++
         "Audio: " ++ py_str spoken ++ Spec.typed_line (Some "hi") ++
         PyStr.nl ++ PyStr.nl ++
         "Please provide a helpful response based on the above information:")
        default_model st2.
Proof.
  exact (image_fragment_before_audio Mock.served Mock.self (Some "hi")
           "pics/Cat.JPG" "clips/Note.FLAC" Mock.start eq_refl eq_refl).
Defined.

Lemma working_accepts : Spec.accepts (working (World := unit)).
Proof. intros line w. reflexivity. Defined.

Lemma operations_return_witness :
  exists v st',
    Console.multimodal_chat Mock.served working Mock.self (Some "hi")
      (Some "pics/Cat.JPG") (Some "clips/Note.FLAC") Mock.start = (inr v, st') /\
    is_str v = true.
Proof.
  destruct (proj2 (proj2 (proj2 (operations_return Mock.served working Mock.self
                                   working_accepts)))
              (Some "hi") (Some "pics/Cat.JPG") (Some "clips/Note.FLAC") Mock.start)
    as [v [st' [E Hs]]].
  exists v, st'. split; [exact E | exact (Hs served_answers_text)].
Defined.

(** C3, as it is stated, fails twice.  On a standard output that was
    closed, the [print] of multimodal-chat that announces the image raises
    and the exception leaves multimodal-chat; with a transport that cannot
    connect, the [print] in the handlers of image-caption, speech-to-text
    and text-completion raises and the exception leaves them.  And on a
    standard output that works, a 200 answer whose first choice holds
    [null] makes text-completion, and with it multimodal-chat, return
    [None], which is no string. *)
Lemma operations_raise_or_return_none :
  fst (Console.multimodal_chat Mock.served Faults.closed Mock.self None
         (Some "pics/Cat.JPG") None Mock.start) = inl Faults.closed_file /\
  fst (Console.generate_image_caption Faults.unreachable Faults.closed Mock.self
         (Some "pics/Cat.JPG") Mock.start) = inl Faults.closed_file /\
  fst (Console.speech_to_text Faults.unreachable Faults.closed Mock.self
         (Some "clips/Note.FLAC") Mock.start) = inl Faults.closed_file /\
  fst (Console.query_groq_llm Faults.unreachable Faults.closed Mock.self
         Spec.prompt_hi default_model Mock.start) = inl Faults.closed_file /\
  fst (Console.query_groq_llm Mock.nulled working Mock.self Spec.prompt_hi
         default_model Mock.start) = inr PNone /\
  fst (Console.multimodal_chat Mock.nulled working Mock.self (Some "hi") None None
         Mock.start) = inr PNone /\
  is_str PNone = false.
Proof. repeat split; reflexivity. Qed.

(** The run of the example of the specification, whole. *)
Example chat_hi_run :
  multimodal_chat Mock.served Mock.self (Some "hi") None None Mock.start =
    (inr (PStr "hello"),
     mkState tt [Posted (completion_request Mock.self Spec.prompt_hi default_model)]).
Proof. reflexivity. Qed.

Example strings_run :
  PyStr.of_Z 200 = "200" /\ PyStr.of_Z (-7) = "-7" /\
  PyStr.split "." "a.b..c" = ["a"; "b"; ""; "c"] /\
  PyStr.basename "/tmp/x/cat.png" = "cat.png" /\
  PyStr.strip "  a b  " = "a b" /\
  PyStr.lower "Cat.JPG" = "cat.jpg".
Proof. repeat split; reflexivity. Qed.

Example b64encode_run :
  Base64.b64encode [Byte.x4d; Byte.x61; Byte.x6e] = "TWFu" /\
  Base64.b64encode [Byte.x4d; Byte.x61] = "TWE=" /\
  Base64.b64encode [Byte.x4d] = "TQ==".
Proof. repeat split; reflexivity. Qed.

(** ** More on the formats *)

Lemma lower_char_idempotent (c : ascii) :
  PyStr.lower_char (PyStr.lower_char c) = PyStr.lower_char c.
Proof. destruct c as [[] [] [] [] [] [] [] []]; reflexivity. Qed.

Lemma lower_idempotent (s : string) : PyStr.lower (PyStr.lower s) = PyStr.lower s.
Proof.
  induction s as [|c r IH]; simpl; [reflexivity|].
  now rewrite lower_char_idempotent, IH.
Qed.

(** The pieces of a split hold no separator, and are lowered when the
    string is. *)
Lemma split_pieces (sep : ascii) (s : string) :
  Forall (fun w => PyStr.contains sep w = false /\
                   (PyStr.lower s = s -> PyStr.lower w = w))
         (PyStr.split sep s).
Proof.
  induction s as [|c r IH]; simpl.
  - repeat constructor.
  - assert (IH' : Forall (fun w => PyStr.contains sep w = false /\
                     (String (PyStr.lower_char c) (PyStr.lower r) = String c r ->
                      PyStr.lower w = w)) (PyStr.split sep r)).
    { eapply Forall_impl; [|exact IH]. simpl. intros w [Hw Hl]. split; [exact Hw|].
      intros E. injection E as _ E. auto. }
    destruct (Ascii.eqb c sep) eqn:Ec.
    + constructor; [split; reflexivity | exact IH'].
    + destruct (PyStr.split sep r) as [|w ws]; [repeat constructor|].
      * simpl. now rewrite Ec.
      * intros E. injection E as E _. simpl. now rewrite E.
      * inversion IH' as [|? ? [Hw Hl] Hws]; subst. constructor; [|exact Hws].
        split.
        -- simpl. now rewrite Ec, Hw.
        -- intros E. simpl. injection E as E1 E2.
           rewrite E1. f_equal. apply Hl. now rewrite E1, E2.
Qed.

Lemma last_item_Forall (P : string -> Prop) (l : list string) :
  l <> [] -> Forall P l -> P (PyStr.last_item l).
Proof.
  intros Hl HP. induction HP as [|x l Hx HP IH]; [congruence|].
  destruct l as [|y l']; [exact Hx|].
  rewrite last_item_cons by discriminate. apply IH. discriminate.
Qed.

Lemma format_of_lowered (path : string) :
  PyStr.contains "." (format_of path) = false /\
  PyStr.lower (format_of path) = format_of path.
Proof.
  unfold format_of.
  pose proof (last_item_Forall _ _ (split_not_nil "." (PyStr.lower path))
                (split_pieces "." (PyStr.lower path))) as [Hd Hl].
  split; [exact Hd | apply Hl, lower_idempotent].
Qed.

(** X9. Whatever the path, the image subtype of the data URI holds no dot
    and no capital letter, and the MIME type of the upload no capital
    letter: lowering them changes nothing. *)
Theorem formats_are_lowered :
  forall path : string,
    PyStr.contains "." (image_format_of path) = false /\
    PyStr.lower (image_format_of path) = image_format_of path /\
    PyStr.lower (audio_mime_type path) = audio_mime_type path.
Proof.
  intros path. destruct (format_of_lowered path) as [Hd Hl].
  unfold image_format_of, audio_mime_type.
  repeat split.
  - destruct (String.eqb (format_of path) "jpg"); [reflexivity | exact Hd].
  - destruct (String.eqb (format_of path) "jpg"); [reflexivity | exact Hl].
  - destruct (String.eqb (format_of path) "mp3"); [reflexivity|].
    destruct (String.eqb (format_of path) "wav"); [reflexivity|].
    destruct (String.eqb (format_of path) "ogg"); [reflexivity|].
    rewrite lower_app, Hl. reflexivity.
Qed.

(** X12. A path without a dot has no extension to take: the whole path,
    lowered, is then the format, both in the data URI of the vision request
    and in the MIME type of the upload. *)
Theorem dotless_path_formats :
  forall (self : GroqMultimodalProcessor) (path base64_image : string),
    PyStr.contains "." path = false ->
    Spec.attached_url (vision_request self path base64_image) =
      Some (PStr ("data:image/" ++ Spec.image_subtype (PyStr.lower path) ++
                  ";base64," ++ base64_image)) /\
    Spec.uploaded_mime (transcription_request self path) =
      Some (Spec.audio_mime (PyStr.lower path)).
Proof.
  intros self path b Hdot. split.
  - unfold Spec.attached_url, vision_request, vision_payload, data_uri. simpl.
    unfold image_format_of, Spec.image_subtype.
    now rewrite (format_of_dotless _ Hdot).
  - unfold Spec.uploaded_mime, transcription_request. simpl.
    unfold audio_mime_type, Spec.audio_mime.
    now rewrite (format_of_dotless _ Hdot).
Qed.

Lemma dotless_path_formats_witness :
  Spec.attached_url (vision_request Mock.self "scan" "TWFu") =
    Some (PStr "data:image/scan;base64,TWFu") /\
  Spec.uploaded_mime (transcription_request Mock.self "scan") = Some "audio/scan".
Proof. exact (dotless_path_formats Mock.self "scan" "TWFu" eq_refl). Defined.

(** X13. The expression [result["choices"][0]["message"]["content"]]
    yields a value exactly on the well-shaped bodies, and raises on every
    other body. *)
Theorem first_choice_content_shape :
  forall body content : pyval,
    first_choice_content body = inr content <-> Wire.well_shaped body content.
Proof.
  intros body content. unfold first_choice_content, Wire.well_shaped. split.
  - destruct body as [| | | | |items|entries]; simpl; try discriminate.
    destruct (lookup "choices" entries) as [choices|] eqn:Ec; [|discriminate].
    destruct choices as [| | | |s|items|d]; simpl; try discriminate.
    + destruct s; discriminate.
    + destruct items as [|choice rest]; [discriminate|].
      destruct choice as [| | | | |l|choice]; simpl; try discriminate.
      destruct (lookup "message" choice) as [message|] eqn:Em; [|discriminate].
      destruct message as [| | | | |l|message]; simpl; try discriminate.
      destruct (lookup "content" message) as [v|] eqn:Ev; [|discriminate].
      intros E. injection E as ->.
      exists entries, choice, rest, message. auto.
  - intros (entries & choice & rest & message & -> & Ec & Em & Ev).
    simpl. rewrite Ec. simpl. rewrite Em. simpl. now rewrite Ev.
Qed.

(** ** The outcomes of the methods *)

Section Outcomes.

Context {World : Type} (rt : Runtime World) (out : Stdout World).

Ltac run :=
  unfold multimodal_chat, collect_context, generate_image_caption, speech_to_text,
    query_groq_llm, encode_image;
  unfold Console.multimodal_chat, Console.collect_context,
    Console.generate_image_caption, Console.speech_to_text, Console.query_groq_llm,
    Console.encode_image, local_fallback, path_exists, open_rb, read, post,
    Image_open, try_except, bind, print, call, working, lift, ret, log; simpl.

(** Rewriting with what the oracles answer, one call after the other. *)
Ltac answer H := rewrite H; simpl.

Ltac flatten := repeat rewrite <- app_assoc; simpl.

(** X1. On any standard output, encode-binary-to-text does this: when
    the file cannot be opened, or is opened and cannot be read, it prints
    [Error encoding image: ] with the message, and then returns [None] if
    the line was printed, and raises the exception of [print] if it was
    not; when the file is read it returns the Base64 text of its bytes and
    prints nothing. *)
Theorem encode_image_outcomes :
  forall (image_path : string) (st : state World),
    (forall e w1 printed w2,
        file_open rt image_path (world st) = (inl e, w1) ->
        out ("Error encoding image: " ++ exn_str e) w1 = (printed, w2) ->
        Console.encode_image rt out image_path st =
          (match printed with inr _ => inr None | inl raised => inl raised end,
           mkState w2 (trace st ++
                       [FileOpened image_path;
                        Printed ("Error encoding image: " ++ exn_str e)]))) /\
    (forall w1 e w2 printed w3,
        file_open rt image_path (world st) = (inr tt, w1) ->
        file_read rt image_path w1 = (inl e, w2) ->
        out ("Error encoding image: " ++ exn_str e) w2 = (printed, w3) ->
        Console.encode_image rt out image_path st =
          (match printed with inr _ => inr None | inl raised => inl raised end,
           mkState w3 (trace st ++
                       [FileOpened image_path; FileRead image_path;
                        Printed ("Error encoding image: " ++ exn_str e)]))) /\
    (forall w1 data w2,
        file_open rt image_path (world st) = (inr tt, w1) ->
        file_read rt image_path w1 = (inr data, w2) ->
        Console.encode_image rt out image_path st =
          (inr (Some (Base64.b64encode data)),
           mkState w2 (trace st ++ [FileOpened image_path; FileRead image_path]))).
Proof.
  intros image_path st. repeat split.
  - intros e w1 printed w2 Ho Hw.
    cbv [Console.encode_image try_except bind open_rb read print call ret].
    rewrite Ho. cbv beta iota. cbn [world trace]. rewrite Hw.
    destruct printed; now flatten.
  - intros w1 e w2 printed w3 Ho Hr Hw.
    cbv [Console.encode_image try_except bind open_rb read print call ret].
    rewrite Ho. cbv beta iota. cbn [world trace]. rewrite Hr.
    cbv beta iota. cbn [world trace]. rewrite Hw.
    destruct printed; now flatten.
  - intros w1 data w2 Ho Hr. run. answer Ho. answer Hr. now flatten.
Qed.

(** X2. When the image exists and cannot be opened, or is opened and
    cannot be read, image-caption answers [Error encoding image] and sends
    no request. *)
Theorem caption_encoding_failure :
  forall (self : GroqMultimodalProcessor) (img_path : string) (st : state World)
         (w1 : World),
    PyStr.truthy img_path = true ->
    os_path_exists rt img_path (world st) = (true, w1) ->
    ((exists e w2, file_open rt img_path w1 = (inl e, w2)) \/
     (exists w2 e w3, file_open rt img_path w1 = (inr tt, w2) /\
                      file_read rt img_path w2 = (inl e, w3))) ->
    exists st',
      generate_image_caption rt self (Some img_path) st =
        (inr (PStr "Error encoding image"), st') /\
      posts (trace st') = posts (trace st).
Proof.
  intros self img_path st w1 Hp He [(e & w2 & Ho) | (w2 & e & w3 & Ho & Hr)];
    run; answer Hp; answer He; answer Ho; try answer Hr;
    (eexists; split; [reflexivity|]); simpl; flatten;
    rewrite posts_app; simpl; apply app_nil_r.
Qed.

(** X3. When the vision request is answered with 200 and a body whose
    first choice holds [content], image-caption returns [content]; the
    events of the run are the check of the path, the opening and the
    reading of the file and the request: nothing is printed and the local
    decoder is not called. *)
Theorem caption_success :
  forall (self : GroqMultimodalProcessor) (img_path : string) (st : state World)
         (w1 w2 w3 w4 : World) (data : list Byte.byte) (resp : response)
         (body content : pyval),
    PyStr.truthy img_path = true ->
    os_path_exists rt img_path (world st) = (true, w1) ->
    file_open rt img_path w1 = (inr tt, w2) ->
    file_read rt img_path w2 = (inr data, w3) ->
    data <> [] ->
    requests_post rt (vision_request self img_path (Base64.b64encode data)) w3
      = (inr resp, w4) ->
    status_code resp = 200%Z ->
    json resp = inr body ->
    first_choice_content body = inr content ->
    generate_image_caption rt self (Some img_path) st =
      (inr content,
       mkState w4 (trace st ++
                   [PathChecked img_path; FileOpened img_path; FileRead img_path;
                    Posted (vision_request self img_path (Base64.b64encode data))])).
Proof.
  intros self img_path st w1 w2 w3 w4 data resp body content
         Hp He Ho Hr Hd Hpost Hs Hj Hc.
  assert (Ht : PyStr.truthy (Base64.b64encode data) = true).
  { rewrite b64encode_truthy. destruct data; congruence. }
  run. answer Hp. answer He. answer Ho. answer Hr. answer Ht. answer Hpost.
  rewrite Hs. simpl. rewrite Hj, Hc. now flatten.
Qed.

(** X4. When the vision request cannot be sent, or is answered with 200
    and a body that is no JSON or that is not well shaped, image-caption
    returns [Error processing image: ] with the message of the exception;
    the local description is not tried. *)
Theorem caption_errors :
  forall (self : GroqMultimodalProcessor) (img_path : string) (st : state World)
         (w1 w2 w3 w4 : World) (data : list Byte.byte) (e : exn),
    PyStr.truthy img_path = true ->
    os_path_exists rt img_path (world st) = (true, w1) ->
    file_open rt img_path w1 = (inr tt, w2) ->
    file_read rt img_path w2 = (inr data, w3) ->
    data <> [] ->
    (requests_post rt (vision_request self img_path (Base64.b64encode data)) w3
       = (inl e, w4) \/
     exists resp,
       requests_post rt (vision_request self img_path (Base64.b64encode data)) w3
         = (inr resp, w4) /\
       status_code resp = 200%Z /\
       (json resp = inl e \/
        exists body, json resp = inr body /\ first_choice_content body = inl e)) ->
    generate_image_caption rt self (Some img_path) st =
      (inr (PStr ("Error processing image: " ++ exn_str e)),
       mkState w4 (trace st ++
                   [PathChecked img_path; FileOpened img_path; FileRead img_path;
                    Posted (vision_request self img_path (Base64.b64encode data));
                    Printed ("Error in generate_image_caption: " ++ exn_str e)])).
Proof.
  intros self img_path st w1 w2 w3 w4 data e Hp He Ho Hr Hd H.
  assert (Ht : PyStr.truthy (Base64.b64encode data) = true).
  { rewrite b64encode_truthy. destruct data; congruence. }
  run. answer Hp. answer He. answer Ho. answer Hr. answer Ht.
  destruct H as [Hpost | (resp & Hpost & Hs & [Hj | (body & Hj & Hc)])];
    answer Hpost; try (rewrite Hs; simpl; rewrite Hj; simpl; try rewrite Hc);
    now flatten.
Qed.

(** X5. text-completion sends its request once and, when the request
    cannot be sent, returns [Error with LLM: ] with the message; when it is
    answered with a status other than 200, it prints the body and returns
    [LLM error: ] with the status code; when it is answered with 200 and a
    body that is no JSON or not well shaped, it returns [Error with LLM: ]
    with the message of the exception. *)
Theorem completion_outcomes :
  forall (self : GroqMultimodalProcessor) (prompt model : string) (st : state World)
         (w1 : World),
    let sent := Posted (completion_request self prompt model) in
    (forall e,
        requests_post rt (completion_request self prompt model) (world st)
          = (inl e, w1) ->
        query_groq_llm rt self prompt model st =
          (inr (PStr ("Error with LLM: " ++ exn_str e)),
           mkState w1 (trace st ++
                       [sent; Printed ("Error with LLM: " ++ exn_str e)]))) /\
    (forall resp,
        requests_post rt (completion_request self prompt model) (world st)
          = (inr resp, w1) ->
        status_code resp <> 200%Z ->
        query_groq_llm rt self prompt model st =
          (inr (PStr ("LLM error: " ++ PyStr.of_Z (status_code resp))),
           mkState w1 (trace st ++
                       [sent; Printed ("LLM API error: " ++ text resp)]))) /\
    (forall resp e,
        requests_post rt (completion_request self prompt model) (world st)
          = (inr resp, w1) ->
        status_code resp = 200%Z ->
        (json resp = inl e \/
         exists body, json resp = inr body /\ first_choice_content body = inl e) ->
        query_groq_llm rt self prompt model st =
          (inr (PStr ("Error with LLM: " ++ exn_str e)),
           mkState w1 (trace st ++
                       [sent; Printed ("Error with LLM: " ++ exn_str e)]))).
Proof.
  intros self prompt model st w1 sent. subst sent. repeat split.
  - intros e Hpost. run. answer Hpost. now flatten.
  - intros resp Hpost Hs. apply Z.eqb_neq in Hs. run. answer Hpost. rewrite Hs.
    simpl. now flatten.
  - intros resp e Hpost Hs [Hj | (body & Hj & Hc)]; run; answer Hpost;
      rewrite Hs; simpl; rewrite Hj; simpl; try rewrite Hc; now flatten.
Qed.

(** X7. speech-to-text returns [Error processing audio: ] with the
    message of the exception when the file exists and cannot be opened, in
    which case no request is sent, when the request cannot be sent, and
    when the answer is 200 with a body that is no JSON; a 200 body that is
    JSON and no object gives the message of the missing method [get]. *)
Theorem transcription_failures :
  forall (self : GroqMultimodalProcessor) (audio_path : string) (st : state World)
         (w1 : World),
    PyStr.truthy audio_path = true ->
    os_path_exists rt audio_path (world st) = (true, w1) ->
    (forall e w2,
        file_open rt audio_path w1 = (inl e, w2) ->
        exists st',
          speech_to_text rt self (Some audio_path) st =
            (inr (PStr ("Error processing audio: " ++ exn_str e)), st') /\
          posts (trace st') = posts (trace st)) /\
    (forall w2 e w3,
        file_open rt audio_path w1 = (inr tt, w2) ->
        requests_post rt (transcription_request self audio_path) w2 = (inl e, w3) ->
        fst (speech_to_text rt self (Some audio_path) st) =
          inr (PStr ("Error processing audio: " ++ exn_str e))) /\
    (forall w2 resp w3,
        file_open rt audio_path w1 = (inr tt, w2) ->
        requests_post rt (transcription_request self audio_path) w2 = (inr resp, w3) ->
        status_code resp = 200%Z ->
        (forall e, json resp = inl e ->
           fst (speech_to_text rt self (Some audio_path) st) =
             inr (PStr ("Error processing audio: " ++ exn_str e))) /\
        (forall body, json resp = inr body ->
           (forall entries, body <> PDict entries) ->
           fst (speech_to_text rt self (Some audio_path) st) =
             inr (PStr ("Error processing audio: '" ++ type_name body ++
                        "' object has no attribute 'get'")))).
Proof.
  intros self audio_path st w1 Hp He. split; [|split].
  - intros e w2 Ho. run. answer Hp. answer He. answer Ho.
    eexists; split; [reflexivity|]. simpl. flatten.
    rewrite posts_app. simpl. apply app_nil_r.
  - intros w2 e w3 Ho Hpost. run. answer Hp. answer He. answer Ho. now answer Hpost.
  - intros w2 resp w3 Ho Hpost Hs. split.
    + intros e Hj. run. answer Hp. answer He. answer Ho. answer Hpost.
      rewrite Hs. simpl. now rewrite Hj.
    + intros body Hj Hb. run. answer Hp. answer He. answer Ho. answer Hpost.
      rewrite Hs. simpl. rewrite Hj. simpl.
      destruct body; try reflexivity. destruct (Hb entries). reflexivity.
Qed.

(** *** The requests of a run *)

Lemma sends_ret {A : Type} (x : A) (P : request -> Prop) :
  Wire.sends (ret (World := World) x) 0 P.
Proof.
  intros st. exists (inr x), st, []. repeat split; auto.
  now rewrite app_nil_r.
Qed.

Lemma sends_print (line : string) (P : request -> Prop) :
  Wire.sends (print out line) 0 P.
Proof.
  intros st. unfold print, call. destruct (out line (world st)) as [r w].
  eexists; eexists; exists []. repeat split; auto.
  simpl. rewrite posts_app. reflexivity.
Qed.

(** The requests of two computations in a row add up, whether the first
    returns or raises. *)
Lemma sends_bind {A B : Type} (c : M World A) (k : A -> M World B)
    (n m : nat) (P : request -> Prop) :
  Wire.sends c n P -> (forall x, Wire.sends (k x) m P) ->
  Wire.sends (bind c k) (n + m) P.
Proof.
  intros Hc Hk st. unfold bind.
  destruct (Hc st) as ([e|x] & st1 & rs1 & -> & E1 & L1 & F1).
  - exists (inl e), st1, rs1. repeat split; auto. lia.
  - destruct (Hk x st1) as (y & st2 & rs2 & -> & E2 & L2 & F2).
    exists y, st2, (rs1 ++ rs2)%list. repeat split.
    + now rewrite E2, E1, app_assoc.
    + rewrite length_app. lia.
    + apply Forall_app. auto.
Qed.

Lemma sends_more {A : Type} (c : M World A) (n m : nat) (P : request -> Prop) :
  n <= m -> Wire.sends c n P -> Wire.sends c m P.
Proof.
  intros Hnm Hc st. destruct (Hc st) as (x & st1 & rs & E & Ep & L & F).
  exists x, st1, rs. repeat split; auto. lia.
Qed.

(** Case analysis on what the next test of the code looks at. *)
Ltac next_test :=
  match goal with
  | |- context [match ?x with _ => _ end] =>
      lazymatch x with
      | context [match _ with _ => _ end] => fail
      | _ => destruct x eqn:?; simpl
      end
  end.

Ltac addressed :=
  repeat first
    [ apply Forall_nil
    | apply Forall_cons;
      [split; [first [left; reflexivity | right; reflexivity] | reflexivity]|] ].

(** The end of a run: the requests of its trace, counted and addressed. *)
Ltac count_requests :=
  eexists; eexists; eexists; split; [reflexivity|]; simpl; flatten;
  rewrite ?posts_app; simpl;
  split; [first [reflexivity | symmetry; apply app_nil_r]|];
  split; [simpl; lia | addressed].

Lemma generate_image_caption_sends (key : string) (img_path : option string) :
  Wire.sends (Console.generate_image_caption rt out (init key) img_path) 1
    (Wire.well_addressed (init key)).
Proof. intros st. run. repeat next_test; count_requests. Qed.

Lemma speech_to_text_sends (key : string) (audio_path : option string) :
  Wire.sends (Console.speech_to_text rt out (init key) audio_path) 1
    (Wire.well_addressed (init key)).
Proof. intros st. run. repeat next_test; count_requests. Qed.

Lemma query_groq_llm_sends (key : string) (prompt model : string) :
  Wire.sends (Console.query_groq_llm rt out (init key) prompt model) 1
    (Wire.well_addressed (init key)).
Proof. intros st. run. repeat next_test; count_requests. Qed.

Lemma collect_context_sends (key : string)
    (user_text user_image_path user_audio_path : option string) :
  Wire.sends
    (Console.collect_context rt out (init key) user_text user_image_path
       user_audio_path)
    2 (Wire.well_addressed (init key)).
Proof.
  unfold Console.collect_context.
  apply (sends_bind _ _ 1 1).
  - destruct user_image_path as [path|]; [|apply sends_more with 0; [lia | apply sends_ret]].
    destruct (PyStr.truthy path); [|apply sends_more with 0; [lia | apply sends_ret]].
    apply (sends_bind _ _ 0 1); [apply sends_print|]. intros _.
    apply (sends_bind _ _ 1 0); [apply generate_image_caption_sends|].
    intros caption. apply sends_ret.
  - intros parts. apply (sends_bind _ _ 1 0).
    + destruct user_audio_path as [path|]; [|apply sends_more with 0; [lia | apply sends_ret]].
      destruct (PyStr.truthy path); [|apply sends_more with 0; [lia | apply sends_ret]].
      apply (sends_bind _ _ 0 1); [apply sends_print|]. intros _.
      apply (sends_bind _ _ 1 0); [apply speech_to_text_sends|].
      intros spoken. apply sends_ret.
    + intros parts'. destruct user_text as [typed|]; [|apply sends_ret].
      destruct (PyStr.truthy typed && PyStr.truthy (PyStr.strip typed));
        apply sends_ret.
Qed.

(** X8. Whatever the inputs, the environment and the standard output, and
    whether it returns or raises, a call of multimodal-chat by a processor
    made with [init] sends at most three requests; each of them goes to the
    chat or the transcription endpoint under the base URL and carries the
    bearer token of the processor. *)
Theorem multimodal_chat_requests :
  forall (key : string) (user_text user_image_path user_audio_path : option string)
         (st : state World),
  exists r st' rs,
    Console.multimodal_chat rt out (init key) user_text user_image_path
      user_audio_path st = (r, st') /\
    posts (trace st') = (posts (trace st) ++ rs)%list /\
    length rs <= 3 /\
    Forall (Wire.well_addressed (init key)) rs.
Proof.
  intros key user_text user_image_path user_audio_path.
  change (Wire.sends
            (Console.multimodal_chat rt out (init key) user_text user_image_path
               user_audio_path)
            3 (Wire.well_addressed (init key))).
  unfold Console.multimodal_chat.
  apply (sends_bind _ _ 2 1); [apply collect_context_sends|].
  intros [|part rest].
  - apply sends_more with 0; [lia | apply sends_ret].
  - apply query_groq_llm_sends.
Qed.

(** X6. Whatever the transport answers, text-completion sends one request
    and no more: the completion request of its prompt and model. *)
Theorem completion_one_request :
  forall (self : GroqMultimodalProcessor) (prompt model : string) (st : state World),
    posts (trace (snd (query_groq_llm rt self prompt model st))) =
      (posts (trace st) ++ [completion_request self prompt model])%list.
Proof.
  intros self prompt model st. run.
  repeat next_test; flatten; now rewrite posts_app.
Qed.

(** X10. With a text that is not blank and neither image nor audio,
    multimodal-chat is the completion of [User typed: ] with the text as it
    was typed, spaces around it included, and the closing instruction. *)
Theorem chat_text_only :
  forall (self : GroqMultimodalProcessor) (typed : string)
         (user_image_path user_audio_path : option string) (st : state World),
    given user_image_path = false ->
    given user_audio_path = false ->
    PyStr.strip typed <> "" ->
    multimodal_chat rt self (Some typed) user_image_path user_audio_path st =
      query_groq_llm rt self ("User typed: " ++ typed ++ trailer) default_model st.
Proof.
  intros self typed img aud st Hi Ha Ht.
  assert (E : PyStr.truthy typed && PyStr.truthy (PyStr.strip typed) = true).
  { destruct typed as [|c r]; [now destruct Ht|].
    destruct (PyStr.strip (String c r)); [now destruct Ht | reflexivity]. }
  destruct img as [[|? ?]|]; try discriminate Hi;
    destruct aud as [[|? ?]|]; try discriminate Ha;
    unfold multimodal_chat, query_groq_llm;
    unfold Console.multimodal_chat, Console.collect_context, bind, ret;
    rewrite E; reflexivity.
Qed.

(** X11. An image path that names no file still counts as input: with no
    audio and no text, multimodal-chat does not ask for input but sends the
    completion of the fragment [Image: No image provided]. *)
Theorem chat_missing_image :
  forall (self : GroqMultimodalProcessor) (img_path : string)
         (user_text user_audio_path : option string) (st : state World) (w1 : World),
    PyStr.truthy img_path = true ->
    os_path_exists rt img_path (world st) = (false, w1) ->
    given user_audio_path = false ->
    Spec.blank user_text ->
    multimodal_chat rt self user_text (Some img_path) user_audio_path st =
      query_groq_llm rt self ("Image: No image provided" ++ trailer) default_model
        (mkState w1 (trace st ++ [Printed ("Processing image: " ++ img_path);
                                  PathChecked img_path])).
Proof.
  intros self img_path user_text aud st w1 Hp He Ha Ht.
  destruct aud as [[|? ?]|]; try discriminate Ha;
    (destruct Ht as [-> | (typed & -> & Hs)]; run; answer Hp; answer He;
     [| rewrite Hs; simpl; rewrite andb_false_r; simpl]; now flatten).
Qed.

End Outcomes.

(** ** The outcomes, on the environments that fail *)

Lemma encode_image_outcomes_witness :
  Console.encode_image Faults.locked Faults.closed "pics/Cat.JPG" Mock.start =
    (inl Faults.closed_file,
     mkState tt [FileOpened "pics/Cat.JPG";
                 Printed "Error encoding image: Permission denied"]).
Proof.
  exact (proj1 (encode_image_outcomes Faults.locked Faults.closed "pics/Cat.JPG"
                  Mock.start)
           Faults.denied tt (inl Faults.closed_file) tt eq_refl eq_refl).
Defined.

Lemma caption_encoding_failure_witness :
  exists st',
    generate_image_caption Faults.unreadable Mock.self (Some "pics/Cat.JPG") Mock.start =
      (inr (PStr "Error encoding image"), st') /\
    posts (trace st') = posts (trace Mock.start).
Proof.
  apply (caption_encoding_failure Faults.unreadable Mock.self "pics/Cat.JPG"
           Mock.start tt eq_refl eq_refl).
  right. exists tt, Faults.denied, tt. split; reflexivity.
Defined.

Lemma caption_success_witness :
  generate_image_caption Mock.served Mock.self (Some "pics/Cat.JPG") Mock.start =
    (inr (PStr "hello"),
     mkState tt [PathChecked "pics/Cat.JPG"; FileOpened "pics/Cat.JPG";
                 FileRead "pics/Cat.JPG";
                 Posted (vision_request Mock.self "pics/Cat.JPG" "TWFu")]).
Proof.
  exact (caption_success Mock.served Mock.self "pics/Cat.JPG" Mock.start tt tt tt tt
           [Byte.x4d; Byte.x61; Byte.x6e]
           (mkResponse 200 "ok" (inr (Spec.body_of (PStr "hello"))))
           (Spec.body_of (PStr "hello")) (PStr "hello")
           eq_refl eq_refl eq_refl eq_refl ltac:(discriminate) eq_refl eq_refl
           eq_refl eq_refl).
Defined.

Lemma caption_errors_witness :
  generate_image_caption Faults.garbled Mock.self (Some "pics/Cat.JPG") Mock.start =
    (inr (PStr "Error processing image: list indices must be integers or slices, not str"),
     mkState tt [PathChecked "pics/Cat.JPG"; FileOpened "pics/Cat.JPG";
                 FileRead "pics/Cat.JPG";
                 Posted (vision_request Mock.self "pics/Cat.JPG" "TWFu");
                 Printed "Error in generate_image_caption: list indices must be integers or slices, not str"]).
Proof.
  apply (caption_errors Faults.garbled Mock.self "pics/Cat.JPG" Mock.start tt tt tt tt
           [Byte.x4d; Byte.x61; Byte.x6e]
           (Exception "TypeError" "list indices must be integers or slices, not str")
           eq_refl eq_refl eq_refl eq_refl ltac:(discriminate)).
  right. exists (mkResponse 200 "[]" (inr (PList []))).
  split; [reflexivity|]. split; [reflexivity|].
  right. exists (PList []). split; reflexivity.
Defined.

Lemma completion_outcomes_witness :
  query_groq_llm Mock.unserved Mock.self "hi" default_model Mock.start =
    (inr (PStr "LLM error: 503"),
     mkState tt [Posted (completion_request Mock.self "hi" default_model);
                 Printed "LLM API error: Service Unavailable"]).
Proof.
  apply (proj1 (proj2 (completion_outcomes Mock.unserved Mock.self "hi" default_model
                         Mock.start tt))
           (mkResponse 503 "Service Unavailable"
              (inl (Exception "JSONDecodeError"
                      "Expecting value: line 1 column 1 (char 0)")))).
  - reflexivity.
  - discriminate.
Defined.

Lemma transcription_failures_witness :
  fst (speech_to_text Faults.unreachable Mock.self (Some "clips/Note.FLAC") Mock.start) =
    inr (PStr "Error processing audio: Connection refused").
Proof.
  exact (proj1 (proj2 (transcription_failures Faults.unreachable Mock.self
                         "clips/Note.FLAC" Mock.start tt eq_refl eq_refl))
           tt Faults.refused tt eq_refl eq_refl).
Defined.

Lemma chat_text_only_witness :
  multimodal_chat Mock.served Mock.self (Some " hi ") None (Some "") Mock.start =
    query_groq_llm Mock.served Mock.self ("User typed:  hi " ++ trailer) default_model
      Mock.start.
Proof.
  apply (chat_text_only Mock.served Mock.self " hi " None (Some "") Mock.start).
  - reflexivity.
  - reflexivity.
  - discriminate.
Defined.

Lemma chat_missing_image_witness :
  multimodal_chat Mock.served Mock.self None (Some "pics/gone.png") None Mock.start =
    query_groq_llm Mock.served Mock.self ("Image: No image provided" ++ trailer)
      default_model
      (mkState tt [Printed "Processing image: pics/gone.png";
                   PathChecked "pics/gone.png"]).
Proof.
  apply (chat_missing_image Mock.served Mock.self "pics/gone.png" None None
           Mock.start tt).
  - reflexivity.
  - reflexivity.
  - reflexivity.
  - left. reflexivity.
Defined.

Lemma generate_image_caption_posts_witness :
  posts (trace (snd (generate_image_caption Mock.unserved Mock.self
                       (Some "pics/Cat.JPG") Mock.start))) =
    [vision_request Mock.self "pics/Cat.JPG" "TWFu"].
Proof.
  apply (generate_image_caption_posts Mock.unserved Mock.self "pics/Cat.JPG"
           Mock.start tt tt tt [Byte.x4d; Byte.x61; Byte.x6e]).
  - reflexivity.
  - reflexivity.
  - reflexivity.
  - reflexivity.
  - discriminate.
Defined.

Lemma speech_to_text_posts_witness :
  posts (trace (snd (speech_to_text Mock.unserved Mock.self
                       (Some "clips/Note.FLAC") Mock.start))) =
    [transcription_request Mock.self "clips/Note.FLAC"].
Proof.
  apply (speech_to_text_posts Mock.unserved Mock.self "clips/Note.FLAC"
           Mock.start tt tt).
  - reflexivity.
  - reflexivity.
  - reflexivity.
Defined.

(** The three requests of a whole run, and the text of a run with no
    provider. *)
Example chat_unserved_run :
  fst (multimodal_chat Mock.unserved Mock.self (Some "hi") (Some "pics/Cat.JPG")
         (Some "clips/Note.FLAC") Mock.start) = inr (PStr "LLM error: 503") /\
  length (posts (trace (snd (multimodal_chat Mock.unserved Mock.self (Some "hi")
                               (Some "pics/Cat.JPG") (Some "clips/Note.FLAC")
                               Mock.start)))) = 3.
Proof. split; reflexivity. Qed.
